(** * The login flow of [src/screens/Auth/Login.js]

    A shallow embedding of [handleLogin]: the JavaScript values it inspects,
    the three collaborators it calls (axios, jwt-decode, AsyncStorage), the
    effects it performs on the screen, the session store and the navigator,
    and the properties of the flow. *)

From Stdlib Require Import ZArith String List DecimalString DecimalZ.
From stdpp Require Import base gmap strings list.

Local Open Scope string_scope.
Local Open Scope list_scope.
Local Open Scope Z_scope.

(** ** JavaScript values *)

(** The values that reach [handleLogin]: a parsed JSON body, a decoded token
    payload, a header.  The numbers of the model are the safe integers (see
    [safe_integer]); fractions, larger magnitudes and NaN are outside it.
    An object is the list of its own data properties (keys distinct). *)
#[warnings="-register-all"]
Inductive JsVal : Type :=
| JUndefined
| JNull
| JBool (b : bool)
| JNum (n : Z)
| JStr (s : string)
| JArr (items : list JsVal)
| JObj (fields : list (string * JsVal)).

(** [!!v] *)
Definition truthy (v : JsVal) : bool :=
  match v with
  | JUndefined | JNull => false
  | JBool b => b
  | JNum n => negb (n =? 0)
  | JStr s => negb (String.eqb s "")
  | JArr _ | JObj _ => true
  end.

(** [a || b] *)
Definition js_or (a b : JsVal) : JsVal := if truthy a then a else b.

(** The integers of magnitude below 2^53: each of them is a number of its
    own, a JSON body gives it exactly, and [toString] prints all its digits.
    Beyond that range the real numbers are rounded and, from 10^21 on,
    printed with an exponent: the model does not follow them there. *)
Definition safe_integer (n : Z) : Prop := - 2 ^ 53 < n < 2 ^ 53.

(** [n.toString()] on a safe integer: its decimal digits, with a leading
    minus sign when it is negative.  What depends on the digits is stated
    for safe integers only. *)
Definition toString (n : Z) : string := NilZero.string_of_int (Z.to_int n).

(** [s.includes(sub)] on strings: [sub] occurs somewhere in [s]. *)
Fixpoint includes (s sub : string) : bool :=
  String.prefix sub s
  || match s with
     | EmptyString => false
     | String _ rest => includes rest sub
     end.

(** [o.k] for an own data property of a parsed JSON object. *)
Fixpoint own_property (fields : list (string * JsVal)) (k : string) : JsVal :=
  match fields with
  | [] => JUndefined
  | (k', v) :: rest => if String.eqb k' k then v else own_property rest k
  end.

(** ** Responses and errors *)

Record Response : Type := {
  status : Z;
  data : JsVal;
  headers : gmap string string
}.

(** What a [catch] clause looks at: [error.response] and whether
    [error.request] is set.  An error that does not come from axios (a
    TypeError, jwt-decode's InvalidTokenError, a rejected storage write) has
    neither. *)
Record JsError : Type := {
  response : option Response;
  request : bool
}.

Definition plain_error : JsError := {| response := None; request := false |}.

(** ** Effects and the flow monad *)

Inductive Effect : Type :=
| SetErrorMessage (msg : JsVal)
| Alert (title : string) (message : JsVal)
| SetItem (key : string) (value : JsVal)
| NavReplace (name : string) (params : JsVal).

Inductive Outcome (A : Type) : Type :=
| Ok (a : A)
| Throw (e : JsError).
Arguments Ok {A} a.
Arguments Throw {A} e.

(** A computation is the effects it performed, in order, and how it ended. *)
Definition Flow (A : Type) : Type := (list Effect * Outcome A)%type.

Definition ret {A} (a : A) : Flow A := ([], Ok a).

Definition bind {A B} (m : Flow A) (k : A -> Flow B) : Flow B :=
  match m with
  | (t, Ok a) => let '(t', o) := k a in (t ++ t', o)
  | (t, Throw e) => (t, Throw e)
  end.

Definition emit (e : Effect) : Flow unit := ([e], Ok tt).

Definition throw {A} (e : JsError) : Flow A := ([], Throw e).

(** [try { m } catch (error) { h error }] *)
Definition try_catch {A} (m : Flow A) (h : JsError -> Flow A) : Flow A :=
  match m with
  | (t, Ok a) => (t, Ok a)
  | (t, Throw e) => let '(t', o) := h e in (t ++ t', o)
  end.

(** A pure step that may throw. *)
Definition lift {A} (o : Outcome A) : Flow A := ([], o).

#[export] Instance flow_ret : MRet Flow := @ret.
#[export] Instance flow_bind : MBind Flow := fun A B k m => bind m k.

(** ** Dynamic operations used by the flow *)

(** [v?.k]: [undefined] on anything that is not an object holding [k]. *)
Definition get_opt (v : JsVal) (k : string) : JsVal :=
  match v with
  | JObj fields => own_property fields k
  | _ => JUndefined
  end.

(** [v.includes(arg)] with a string argument: substring search on a string,
    membership on an array, a TypeError on every value without the method. *)
Definition call_includes (v : JsVal) (arg : string) : Outcome bool :=
  match v with
  | JStr s => Ok (includes s arg)
  | JArr items =>
      Ok (existsb (fun x => match x with JStr s => String.eqb s arg | _ => false end) items)
  | _ => Throw plain_error
  end.

(** [roles.find(cb)] on an array of strings: the first entry the callback
    accepts, [undefined] when there is none. *)
Definition array_find (cb : string -> bool) (roles : list string) : JsVal :=
  match find cb roles with
  | Some role => JStr role
  | None => JUndefined
  end.

(** ** The collaborators *)

Record Credentials : Type := { username : string; password : string }.

(** The claim set of a token, as the flow reads it: the [authorities] claim
    is a sequence of strings, or is missing ([None], which is also how a
    falsy claim is read by [|| []]). *)
Record DecodedToken : Type := { authorities : option (list string) }.

(** What the network did with a request. *)
Inductive NetOutcome : Type :=
| Responded (r : Response)   (* the server answered *)
| NoReply                    (* the request left, nothing came back *)
| NotSent.                   (* the request could not be set up *)

(** Everything outside the screen: the remote service behind the network,
    the token decoder ([None]: it throws), and whether the session store
    accepts a write ([false]: the promise rejects). *)
Record World : Type := {
  send : string -> Credentials -> NetOutcome;
  jwtDecode : JsVal -> option DecodedToken;
  setItemOk : string -> JsVal -> bool
}.

(** axios' default [validateStatus]. *)
Definition validateStatus (s : Z) : bool := (200 <=? s) && (s <? 300).

(** [await axios.post(url, body, config)]: resolves with the response on a
    2xx status, rejects with an error that carries the response on any other
    status, with only the request when no answer arrived, with neither when
    the request was never made. *)
Definition axios_post (w : World) (url : string) (body : Credentials) : Flow Response :=
  match send w url body with
  | Responded r =>
      if validateStatus (status r) then ret r
      else throw {| response := Some r; request := true |}
  | NoReply => throw {| response := None; request := true |}
  | NotSent => throw plain_error
  end.

(** [response.headers[name]] *)
Definition header (r : Response) (name : string) : JsVal :=
  match headers r !! name with
  | Some s => JStr s
  | None => JUndefined
  end.

(** [jwtDecode(token)] *)
Definition call_jwtDecode (w : World) (token : JsVal) : Flow DecodedToken :=
  match jwtDecode w token with
  | Some decoded => ret decoded
  | None => throw plain_error
  end.

(** [await AsyncStorage.setItem(key, value)] *)
Definition setItem (w : World) (key : string) (value : JsVal) : Flow unit :=
  if setItemOk w key value then emit (SetItem key value) else throw plain_error.

(** ** handleLogin *)

Definition login_url : string :=
  "https://amused-gnu-legally.ngrok-free.app/user/login".

(** The second argument of [navigation.replace('Main', ...)], per branch. *)
Definition guest_destination : JsVal :=
  JObj [("screen", JStr "Guests");
        ("params", JObj [("screen", JStr "GuestViolation")])].

Definition employee_destination : JsVal :=
  JObj [("screen", JStr "Employees");
        ("params", JObj [("screen", JStr "EmployeeReport")])].

Definition student_destination (studentNumber : JsVal) : JsVal :=
  JObj [("screen", JStr "Students");
        ("params", JObj [("screen", JStr "StudentViolation");
                         ("studentNumber", studentNumber)])].

(** Lines 102-116: the [catch (error)] clause. *)
Definition on_error (error : JsError) : Flow unit :=
  match response error with
  | Some r =>
      if status r =? 400 then
        emit (SetErrorMessage (JStr "Incorrect username or password. Please try again."))
      else
        let serverMessage :=
          js_or (get_opt (data r) "message")
                (JStr "Invalid request. Please check your input.") in
        emit (SetErrorMessage serverMessage);;
        emit (Alert "Login Error" serverMessage)
  | None =>
      if request error then
        emit (SetErrorMessage (JStr "No response from server. Check network or server status."));;
        emit (Alert "Login Error" (JStr "No response from server. Check network or server status."))
      else
        emit (SetErrorMessage (JStr "Request error. Please try again."));;
        emit (Alert "Login Error" (JStr "Request error. Please try again."))
  end.

(** Lines 54-56: a numeric identifier becomes its decimal string. *)
Definition as_text (studentNumber : JsVal) : JsVal :=
  match studentNumber with
  | JNum n => JStr (toString n)
  | _ => studentNumber
  end.

(** Lines 67-68: the role tag of a decoded token. *)
Definition userRole_of (decodedToken : DecodedToken) : JsVal :=
  let roles := default [] (authorities decodedToken) in
  array_find (fun role => includes role "ROLE_") roles.

(** Lines 75-98: the three writes and the dispatch. *)
Definition persist_and_route (w : World) (userRole token studentNumber : JsVal) : Flow unit :=
  setItem w "role" userRole;;
  setItem w "token" token;;
  isGuest ← lift (call_includes userRole "ROLE_GUEST");
  if isGuest : bool then
    setItem w "guestId" studentNumber;;
    emit (NavReplace "Main" guest_destination)
  else
    isEmployee ← lift (call_includes userRole "ROLE_EMPLOYEE");
    if isEmployee : bool then
      setItem w "employeeNumber" studentNumber;;
      emit (NavReplace "Main" employee_destination)
    else
      setItem w "studentNumber" studentNumber;;
      emit (NavReplace "Main" (student_destination studentNumber)).

(** Lines 65-98: from the token to the dispatch. *)
Definition authorize (w : World) (token studentNumber : JsVal) : Flow unit :=
  decodedToken ← call_jwtDecode w token;
  let userRole := userRole_of decodedToken in
  if negb (truthy userRole) then
    emit (Alert "Error" (JStr "Unauthorized role. Please try again."))
  else
    persist_and_route w userRole token studentNumber.

(** Lines 42-101: the body of the [try] block. *)
Definition attempt (w : World) (userData : Credentials) : Flow unit :=
  response ← axios_post w login_url userData;
  if status response =? 200 then
    let studentNumber := data response in
    if negb (truthy studentNumber) then
      emit (SetErrorMessage (JStr "Student number not received from server."))
    else
      let studentNumber := as_text studentNumber in
      let token := header response "jwt-token" in
      if negb (truthy token) then
        emit (SetErrorMessage (JStr "Token not received from server."))
      else
        authorize w token studentNumber
  else
    emit (SetErrorMessage (JStr "Login failed. Please check your credentials.")).

Definition handleLogin (w : World) (username password : string) : Flow unit :=
  emit (SetErrorMessage (JStr ""));;
  let userData := {| username := username; password := password |} in
  try_catch (attempt w userData) on_error.

(** The effects of one press of the login button, in order. *)
Definition trace (w : World) (username password : string) : list Effect :=
  fst (handleLogin w username password).

(** ** The state the effects act on *)

Record AppState : Type := {
  errorMessage : JsVal;                 (* the inline message of the screen *)
  storage : gmap string JsVal;          (* AsyncStorage *)
  alerts : list (string * JsVal);       (* blocking alerts shown so far *)
  navigated : option (string * JsVal)   (* [None]: still on the login screen *)
}.

Definition apply_effect (st : AppState) (e : Effect) : AppState :=
  match e with
  | SetErrorMessage msg =>
      {| errorMessage := msg; storage := storage st;
         alerts := alerts st; navigated := navigated st |}
  | Alert title message =>
      {| errorMessage := errorMessage st; storage := storage st;
         alerts := alerts st ++ [(title, message)]; navigated := navigated st |}
  | SetItem key value =>
      {| errorMessage := errorMessage st; storage := <[key := value]> (storage st);
         alerts := alerts st; navigated := navigated st |}
  | NavReplace name params =>
      {| errorMessage := errorMessage st; storage := storage st;
         alerts := alerts st; navigated := Some (name, params) |}
  end.

Definition run (st : AppState) (t : list Effect) : AppState :=
  fold_left apply_effect t st.

(** The screen after the login button was pressed in state [st]. *)
Definition press_login (w : World) (username password : string) (st : AppState) : AppState :=
  run st (trace w username password).

(** The session-store writes of a trace, in order. *)
Definition writes (t : list Effect) : list (string * JsVal) :=
  flat_map (fun e => match e with SetItem k v => [(k, v)] | _ => [] end) t.

(** The router calls of a trace, in order. *)
Definition routings (t : list Effect) : list (string * JsVal) :=
  flat_map (fun e => match e with NavReplace n p => [(n, p)] | _ => [] end) t.

(** ** The vocabulary of the specification *)

(** The three roles of the data model. *)
Inductive Role : Type := Guest | Employee | Student.

(** The role table of the Token Processor, in the specification's words:
    [ROLE_GUEST] gives Guest, [ROLE_EMPLOYEE] gives Employee, anything else
    Student. *)
Definition role_of_tag (tag : string) : Role :=
  if includes tag "ROLE_GUEST" then Guest
  else if includes tag "ROLE_EMPLOYEE" then Employee
  else Student.

(** The identifier slot of the Session Store that belongs to a role. *)
Definition identifier_slot (role : Role) : string :=
  match role with
  | Guest => "guestId"
  | Employee => "employeeNumber"
  | Student => "studentNumber"
  end.

(** The destination area of a role. *)
Definition destination (role : Role) (identifier : JsVal) : JsVal :=
  match role with
  | Guest => guest_destination
  | Employee => employee_destination
  | Student => student_destination identifier
  end.

(** The effects of a login that goes through: the message is cleared, the
    batch of three writes, then the router. *)
Definition session_trace (role : Role) (tag token identifier : JsVal) : list Effect :=
  [ SetErrorMessage (JStr "");
    SetItem "role" tag;
    SetItem "token" token;
    SetItem (identifier_slot role) identifier;
    NavReplace "Main" (destination role identifier) ].

(** A Session is in the store: the role, the token and one identifier slot
    were written, and nothing else. *)
Definition session_persisted (t : list Effect) : Prop :=
  exists role tag token identifier,
    writes t = [("role", tag); ("token", token); (identifier_slot role, identifier)].

(** The session store takes every write. *)
Definition accepts_writes (w : World) : Prop :=
  forall key value, setItemOk w key value = true.

(** The remote service answers the credentials with [r]: status 200, a
    subject identifier that is there, and a non-empty token header that
    decodes to [decoded]. *)
Definition answered (w : World) (username password : string)
    (r : Response) (token : string) (decoded : DecodedToken) : Prop :=
  send w login_url {| username := username; password := password |} = Responded r
  /\ status r = 200
  /\ truthy (data r) = true
  /\ headers r !! "jwt-token" = Some token
  /\ token <> ""
  /\ jwtDecode w (JStr token) = Some decoded.

(** The first entry of a claim sequence that carries [ROLE_]. *)
Definition first_role_tag (tags : list string) : option string :=
  find (fun tag => includes tag "ROLE_") tags.

(** The condition of the session invariant as the specification words it:
    the claim set holds exactly one entry that carries [ROLE_]. *)
Definition stated_condition (w : World) (username password : string) : Prop :=
  exists r token decoded tags,
    answered w username password r token decoded
    /\ authorities decoded = Some tags
    /\ length (List.filter (fun tag => includes tag "ROLE_") tags) = 1%nat.

(** The condition the flow tests: at least one entry carries [ROLE_]. *)
Definition login_accepted (w : World) (username password : string) : Prop :=
  exists r token decoded tags tag,
    answered w username password r token decoded
    /\ authorities decoded = Some tags
    /\ In tag tags
    /\ includes tag "ROLE_" = true.

(** The parameter bag a destination hands to its entry view. *)
Definition entry_params (dest : JsVal) : JsVal := get_opt dest "params".

(** The bag carries the identifier, under some key. *)
Definition passes_identifier (dest identifier : JsVal) : Prop :=
  exists key, get_opt (entry_params dest) key = identifier.

(** The three identifier slots. *)
Definition identifier_slots : list string :=
  ["guestId"; "employeeNumber"; "studentNumber"].

(** ** Scenarios *)

(** A world whose service answers every request with the given status, body
    and token header, whose tokens all decode to the given claim, and whose
    store takes every write. *)
Definition service (code : Z) (body : JsVal) (token : option string)
    (claim : option (list string)) : World :=
  {| send := fun _ _ =>
       Responded {| status := code; data := body;
                    headers := match token with
                               | Some t => {[ "jwt-token" := t ]}
                               | None => ∅
                               end |};
     jwtDecode := fun _ => Some {| authorities := claim |};
     setItemOk := fun _ _ => true |}.

(** Nothing comes back from the network. *)
Definition unreachable : World :=
  {| send := fun _ _ => NoReply;
     jwtDecode := fun _ => None;
     setItemOk := fun _ _ => true |}.

Definition student_world : World :=
  service 200 (JStr "2021001234") (Some "header.payload.signature") (Some ["ROLE_STUDENT"]).

Definition shadow_world : World :=
  service 200 (JNum 7001) (Some "header.payload.signature")
    (Some ["ROLE_EMPLOYEE"; "ROLE_ADMIN_SHADOW"]).

Definition guest_world : World :=
  service 200 (JStr "G-17") (Some "header.payload.signature") (Some ["ROLE_GUEST"]).

Definition wrong_password_world : World :=
  service 400 (JObj [("message", JStr "Bad credentials")]) None None.

Definition empty_body_world : World :=
  service 200 (JStr "") (Some "header.payload.signature") (Some ["ROLE_STUDENT"]).

Definition zero_body_world : World :=
  service 200 (JNum 0) (Some "header.payload.signature") (Some ["ROLE_STUDENT"]).

(** One tag that carries both [ROLE_EMPLOYEE] and [ROLE_GUEST]. *)
Definition both_tags_world : World :=
  service 200 (JStr "E-9") (Some "header.payload.signature")
    (Some ["ROLE_EMPLOYEE,ROLE_GUEST"]).

Definition no_claim_world : World :=
  service 200 (JStr "2021001234") (Some "header.payload.signature") None.

Definition initial_state : AppState :=
  {| errorMessage := JStr ""; storage := ∅; alerts := []; navigated := None |}.

(** The same world with a store that refuses the writes to one key. *)
Definition refusing_store (w : World) (refused : string) : World :=
  {| send := send w;
     jwtDecode := jwtDecode w;
     setItemOk := fun key _ => negb (String.eqb key refused) |}.

(** ** The shapes of a run *)

(** The batch of writes of a session, in the order of lines 75-93. *)
Definition batch (tag token : string) (identifier : JsVal) : list Effect :=
  [ SetItem "role" (JStr tag);
    SetItem "token" (JStr token);
    SetItem (identifier_slot (role_of_tag tag)) identifier ].

(** What the last branch of the [catch] clause does (lines 113-114). *)
Definition request_error : list Effect :=
  [ SetErrorMessage (JStr "Request error. Please try again.");
    Alert "Login Error" (JStr "Request error. Please try again.") ].

(** The fixed texts that are shown inline without an alert (lines 50, 61,
    100 and 104). *)
Definition inline_messages : list string :=
  [ "Student number not received from server.";
    "Token not received from server.";
    "Login failed. Please check your credentials.";
    "Incorrect username or password. Please try again." ].

(** The forms the effects of one run can take. *)
Inductive Shape : list Effect -> Prop :=
| shape_session (tag token : string) (d : JsVal) :
    includes tag "ROLE_" = true -> token <> "" -> truthy d = true ->
    Shape (session_trace (role_of_tag tag) (JStr tag) (JStr token) (as_text d))
| shape_refused (tag token : string) (d : JsVal) (n : nat) :
    includes tag "ROLE_" = true -> token <> "" -> truthy d = true ->
    (n < 3)%nat ->
    Shape (SetErrorMessage (JStr "")
             :: firstn n (batch tag token (as_text d)) ++ request_error)
| shape_inline (m : string) :
    In m inline_messages ->
    Shape [ SetErrorMessage (JStr ""); SetErrorMessage (JStr m) ]
| shape_unauthorized :
    Shape [ SetErrorMessage (JStr "");
            Alert "Error" (JStr "Unauthorized role. Please try again.") ]
| shape_alert (m : JsVal) :
    truthy m = true ->
    Shape [ SetErrorMessage (JStr ""); SetErrorMessage m; Alert "Login Error" m ].

(** The blocking alerts of a trace, in order. *)
Definition alerts_of (t : list Effect) : list (string * JsVal) :=
  flat_map (fun e => match e with Alert a m => [(a, m)] | _ => [] end) t.

(** ** The login screen *)

(** The state of the component: the two text fields (lines 15-16), the
    visibility switch (line 17), and the rest. *)
Record Screen : Type := {
  form : Credentials;
  passwordVisible : bool;
  app : AppState
}.

(** Lines 23-25. *)
Definition togglePasswordVisibility (s : Screen) : Screen :=
  {| form := form s;
     passwordVisible := negb (passwordVisible s);
     app := app s |}.

(** Lines 119-122. *)
Definition handleUsernameChange (text : string) (s : Screen) : Screen :=
  {| form := {| username := text; password := password (form s) |};
     passwordVisible := passwordVisible s;
     app := apply_effect (app s) (SetErrorMessage (JStr "")) |}.

(** Lines 124-127. *)
Definition handlePasswordChange (text : string) (s : Screen) : Screen :=
  {| form := {| username := username (form s); password := text |};
     passwordVisible := passwordVisible s;
     app := apply_effect (app s) (SetErrorMessage (JStr "")) |}.

(** Line 169: the login button runs [handleLogin] on the two fields. *)
Definition press (w : World) (s : Screen) : Screen :=
  {| form := form s;
     passwordVisible := passwordVisible s;
     app := press_login w (username (form s)) (password (form s)) (app s) |}.

(** Line 155: the password field hides its text. *)
Definition secureTextEntry (s : Screen) : bool := negb (passwordVisible s).

(** Line 163: the inline error text is rendered. *)
Definition error_shown (s : Screen) : bool := truthy (errorMessage (app s)).

(** A service whose tokens do not decode. *)
Definition garbled_token_world : World :=
  {| send := send student_world;
     jwtDecode := fun _ => None;
     setItemOk := fun _ _ => true |}.

(** The request cannot be set up. *)
Definition unsendable : World :=
  {| send := fun _ _ => NotSent;
     jwtDecode := fun _ => None;
     setItemOk := fun _ _ => true |}.

Definition initial_screen : Screen :=
  {| form := {| username := ""; password := "" |};
     passwordVisible := false;
     app := initial_state |}.

(** ** Strings *)

Lemma append_cons (c : Ascii.ascii) (s t : string) :
  (String c s ++ t)%string = String c (s ++ t)%string.
Proof. reflexivity. Qed.

Lemma prefix_app (p s : string) :
  String.prefix p s = true <-> exists rest, s = (p ++ rest)%string.
Proof.
  revert p. induction s as [|d s IH]; intros [|c p]; simpl.
  - split; [intros _; exists ""; reflexivity | reflexivity].
  - split; [discriminate | intros [rest H]; discriminate].
  - split; [intros _; eexists; reflexivity | reflexivity].
  - destruct (Ascii.ascii_dec c d) as [->|Hne].
    + rewrite IH. split; intros [rest H]; exists rest;
        rewrite append_cons in *; congruence.
    + split; [discriminate | intros [rest H]; rewrite append_cons in H; congruence].
Qed.

(** [includes] is substring containment. *)
Lemma includes_substring (s sub : string) :
  includes s sub = true <-> exists before after, s = (before ++ sub ++ after)%string.
Proof.
  induction s as [|c s IH]; cbn [includes].
  - rewrite orb_false_r, prefix_app. split.
    + intros [rest H]. exists "", rest. exact H.
    + intros [[|b before] [after H]]; [eauto | discriminate].
  - rewrite orb_true_iff, prefix_app, IH. split.
    + intros [[rest H] | (before & after & H)].
      * exists "", rest. exact H.
      * exists (String c before), after. rewrite append_cons. congruence.
    + intros [[|b before] [after H]].
      * left. eauto.
      * right. exists before, after. rewrite append_cons in H. congruence.
Qed.

(** ** The flow, path by path *)

Lemma first_role_tag_includes (tags : list string) (tag : string) :
  first_role_tag tags = Some tag -> includes tag "ROLE_" = true.
Proof. intros H. apply find_some in H. apply H. Qed.

Lemma truthy_role_tag (tag : string) : includes tag "ROLE_" = true -> truthy (JStr tag) = true.
Proof. destruct tag; [discriminate | reflexivity]. Qed.

Lemma userRole_of_first (decoded : DecodedToken) :
  userRole_of decoded =
    match first_role_tag (default [] (authorities decoded)) with
    | Some tag => JStr tag
    | None => JUndefined
    end.
Proof. reflexivity. Qed.

(** The batch and the dispatch when the store takes the three writes. *)
Lemma persist_and_route_ok w tag token id :
  setItemOk w "role" (JStr tag) = true ->
  setItemOk w "token" token = true ->
  setItemOk w (identifier_slot (role_of_tag tag)) id = true ->
  persist_and_route w (JStr tag) token id =
    ([ SetItem "role" (JStr tag); SetItem "token" token;
       SetItem (identifier_slot (role_of_tag tag)) id;
       NavReplace "Main" (destination (role_of_tag tag) id) ], Ok tt).
Proof.
  unfold persist_and_route, setItem, role_of_tag. intros -> ->. cbn.
  destruct (includes tag "ROLE_GUEST"); cbn.
  - intros ->. reflexivity.
  - destruct (includes tag "ROLE_EMPLOYEE"); cbn; intros ->; reflexivity.
Qed.

(** When the store refuses one of them the flow throws before the router is
    reached. *)
Lemma persist_and_route_refused w tag token id :
  setItemOk w "role" (JStr tag) = false
  \/ setItemOk w "token" token = false
  \/ setItemOk w (identifier_slot (role_of_tag tag)) id = false ->
  routings (fst (persist_and_route w (JStr tag) token id)) = []
  /\ snd (persist_and_route w (JStr tag) token id) = Throw plain_error.
Proof.
  unfold persist_and_route, setItem, role_of_tag.
  destruct (setItemOk w "role" (JStr tag)); cbn;
    [| intros _; split; reflexivity].
  destruct (setItemOk w "token" token); cbn;
    [| intros _; split; reflexivity].
  destruct (includes tag "ROLE_GUEST"); cbn.
  - intros [H | [H | ->]]; try discriminate. split; reflexivity.
  - destruct (includes tag "ROLE_EMPLOYEE"); cbn;
      (intros [H | [H | ->]]; try discriminate; split; reflexivity).
Qed.

Section Answered.
Context (w : World) (u p : string) (r : Response) (token : string)
        (decoded : DecodedToken).
Hypothesis Ha : answered w u p r token decoded.

(** Up to the role check the run is determined by the answer. *)
Lemma trace_answered :
  trace w u p =
    SetErrorMessage (JStr "") ::
      fst (try_catch
             (if negb (truthy (userRole_of decoded))
              then emit (Alert "Error" (JStr "Unauthorized role. Please try again."))
              else persist_and_route w (userRole_of decoded) (JStr token)
                     (as_text (data r)))
             on_error).
Proof.
  destruct Ha as (Hs & H200 & Hd & Hh & Hne & Hj).
  unfold trace, handleLogin, attempt, axios_post, authorize, call_jwtDecode, header.
  rewrite Hs. unfold validateStatus. rewrite H200. cbn.
  rewrite H200, Hd, Hh. cbn.
  destruct (String.eqb_spec token ""); [contradiction |]. cbn.
  rewrite Hj. cbn.
  destruct (if negb _ then _ else _) as [t [[]|e]]; cbn; [reflexivity |].
  destruct (on_error e). reflexivity.
Qed.

(** A login that goes through. *)
Lemma trace_session (tag : string) :
  first_role_tag (default [] (authorities decoded)) = Some tag ->
  setItemOk w "role" (JStr tag) = true ->
  setItemOk w "token" (JStr token) = true ->
  setItemOk w (identifier_slot (role_of_tag tag)) (as_text (data r)) = true ->
  trace w u p =
    session_trace (role_of_tag tag) (JStr tag) (JStr token) (as_text (data r)).
Proof.
  intros Hf H1 H2 H3.
  rewrite trace_answered, userRole_of_first, Hf.
  rewrite (truthy_role_tag _ (first_role_tag_includes _ _ Hf)). cbn [negb].
  rewrite persist_and_route_ok by assumption. reflexivity.
Qed.

(** A token without a role tag. *)
Lemma trace_unauthorized :
  first_role_tag (default [] (authorities decoded)) = None ->
  trace w u p =
    [ SetErrorMessage (JStr "");
      Alert "Error" (JStr "Unauthorized role. Please try again.") ].
Proof.
  intros Hf. rewrite trace_answered, userRole_of_first, Hf. reflexivity.
Qed.
End Answered.

Ltac open_flow :=
  unfold trace, handleLogin, attempt, axios_post, authorize, call_jwtDecode,
    header, validateStatus, on_error.

(** A 200 answer without a subject identifier. *)
Lemma trace_missing_subject w u p r :
  send w login_url {| username := u; password := p |} = Responded r ->
  status r = 200 ->
  truthy (data r) = false ->
  trace w u p =
    [ SetErrorMessage (JStr "");
      SetErrorMessage (JStr "Student number not received from server.") ].
Proof.
  intros Hs H200 Hd. open_flow. rewrite Hs, H200. cbn. rewrite H200, Hd. reflexivity.
Qed.

(** A 200 answer without a token. *)
Lemma trace_missing_token w u p r :
  send w login_url {| username := u; password := p |} = Responded r ->
  status r = 200 ->
  truthy (data r) = true ->
  truthy (header r "jwt-token") = false ->
  trace w u p =
    [ SetErrorMessage (JStr "");
      SetErrorMessage (JStr "Token not received from server.") ].
Proof.
  intros Hs H200 Hd Ht. open_flow. rewrite Hs, H200. cbn. rewrite H200, Hd. cbn.
  unfold header in Ht. rewrite Ht. reflexivity.
Qed.

(** A 400 answer. *)
Lemma trace_invalid_credentials w u p r :
  send w login_url {| username := u; password := p |} = Responded r ->
  status r = 400 ->
  trace w u p =
    [ SetErrorMessage (JStr "");
      SetErrorMessage (JStr "Incorrect username or password. Please try again.") ].
Proof.
  intros Hs H400. open_flow. rewrite Hs, H400. cbn. rewrite H400. reflexivity.
Qed.

(** No answer at all. *)
Lemma trace_no_reply w u p :
  send w login_url {| username := u; password := p |} = NoReply ->
  trace w u p =
    [ SetErrorMessage (JStr "");
      SetErrorMessage (JStr "No response from server. Check network or server status.");
      Alert "Login Error" (JStr "No response from server. Check network or server status.") ].
Proof. intros Hs. open_flow. rewrite Hs. reflexivity. Qed.

(** Every run either goes through as a session or leaves the router alone;
    in the second case the store is untouched unless it refused a write. *)
Lemma trace_cases w u p :
  (exists r token decoded tag,
      answered w u p r token decoded
      /\ first_role_tag (default [] (authorities decoded)) = Some tag
      /\ trace w u p =
           session_trace (role_of_tag tag) (JStr tag) (JStr token) (as_text (data r)))
  \/ (routings (trace w u p) = []
      /\ (writes (trace w u p) = [] \/ exists key value, setItemOk w key value = false)).
Proof.
  destruct (send w login_url {| username := u; password := p |}) as [r| |] eqn:Hs.
  - destruct (Z.eqb_spec (status r) 200) as [H200|Hn200].
    + destruct (truthy (data r)) eqn:Hd.
      * destruct (truthy (header r "jwt-token")) eqn:Ht.
        -- unfold header in Ht.
           destruct (headers r !! "jwt-token") as [token|] eqn:Hh; [|discriminate].
           assert (Hne : token <> "") by (intros ->; discriminate).
           destruct (jwtDecode w (JStr token)) as [decoded|] eqn:Hj.
           ++ assert (Ha : answered w u p r token decoded) by (repeat split; assumption).
              destruct (first_role_tag (default [] (authorities decoded))) as [tag|] eqn:Hf.
              ** destruct (setItemOk w "role" (JStr tag)) eqn:H1;
                 [destruct (setItemOk w "token" (JStr token)) eqn:H2;
                  [destruct (setItemOk w (identifier_slot (role_of_tag tag))
                               (as_text (data r))) eqn:H3 |] |].
                 { left. exists r, token, decoded, tag.
                   split; [exact Ha|]. split; [exact Hf|].
                   apply (trace_session _ _ _ _ _ _ Ha _ Hf); assumption. }
                 all: right; (split; [| right; eauto]).
                 all: rewrite (trace_answered _ _ _ _ _ _ Ha), userRole_of_first, Hf;
                   rewrite (truthy_role_tag _ (first_role_tag_includes _ _ Hf));
                   cbn [negb].
                 all: edestruct (persist_and_route_refused w tag (JStr token)
                                   (as_text (data r))) as [Hr Ho]; [eauto |].
                 all: destruct (persist_and_route _ _ _ _) as [t o];
                   cbn in Hr, Ho; subst o; cbn.
                 all: unfold routings in *; rewrite flat_map_app, Hr; reflexivity.
              ** right. rewrite (trace_unauthorized _ _ _ _ _ _ Ha Hf).
                 split; [reflexivity | left; reflexivity].
           ++ right. open_flow. rewrite Hs, H200. cbn. rewrite H200, Hd, Hh. cbn.
              destruct (String.eqb_spec token ""); [contradiction|]. cbn.
              rewrite Hj. split; [reflexivity | left; reflexivity].
        -- right. rewrite (trace_missing_token _ _ _ _ Hs H200 Hd Ht).
           split; [reflexivity | left; reflexivity].
      * right. rewrite (trace_missing_subject _ _ _ _ Hs H200 Hd).
        split; [reflexivity | left; reflexivity].
    + right. open_flow. rewrite Hs.
      destruct ((200 <=? status r) && (status r <? 300)); cbn.
      * destruct (Z.eqb_spec (status r) 200); [contradiction|].
        split; [reflexivity | left; reflexivity].
      * destruct (status r =? 400); split; try reflexivity; left; reflexivity.
  - right. rewrite (trace_no_reply _ _ _ Hs). split; [reflexivity | left; reflexivity].
  - right. open_flow. rewrite Hs. split; [reflexivity | left; reflexivity].
Qed.

(** ** The session store after a run *)

Lemma session_trace_storage role tag token id st :
  storage (run st (session_trace role tag token id)) =
    <[identifier_slot role := id]> (<["token" := token]> (<["role" := tag]> (storage st))).
Proof. reflexivity. Qed.

Lemma other_slot_untouched role tag token id st slot :
  In slot identifier_slots ->
  slot <> identifier_slot role ->
  storage (run st (session_trace role tag token id)) !! slot = storage st !! slot.
Proof.
  intros Hin Hne. rewrite session_trace_storage.
  assert (Ht : "token" <> slot) by (simpl in Hin; intuition (subst; discriminate)).
  assert (Hr : "role" <> slot) by (simpl in Hin; intuition (subst; discriminate)).
  rewrite lookup_insert_ne by congruence.
  rewrite lookup_insert_ne by assumption.
  rewrite lookup_insert_ne by assumption.
  reflexivity.
Qed.

(** ** Scenarios, run *)

(** The Student scenario: the session is stored and the router is given the
    Student area with the student number. *)
Example student_scenario :
  trace student_world "bob" "correct" =
    [ SetErrorMessage (JStr "");
      SetItem "role" (JStr "ROLE_STUDENT");
      SetItem "token" (JStr "header.payload.signature");
      SetItem "studentNumber" (JStr "2021001234");
      NavReplace "Main" (student_destination (JStr "2021001234")) ].
Proof. reflexivity. Qed.

(** A store that refuses the token: the role is already written when the
    flow stops with the request-error message; the router is not reached. *)
Example refused_token_write :
  trace (refusing_store student_world "token") "bob" "correct" =
    [ SetErrorMessage (JStr "");
      SetItem "role" (JStr "ROLE_STUDENT");
      SetErrorMessage (JStr "Request error. Please try again.");
      Alert "Login Error" (JStr "Request error. Please try again.") ].
Proof. reflexivity. Qed.

(** A status outside 2xx other than 400 shows the message of the server. *)
Example server_message_shown :
  trace (service 503 (JObj [("message", JStr "Maintenance")]) None None) "bob" "correct" =
    [ SetErrorMessage (JStr "");
      SetErrorMessage (JStr "Maintenance");
      Alert "Login Error" (JStr "Maintenance") ].
Proof. reflexivity. Qed.

(** ** Properties of the flow *)

Lemma first_role_tag_exists (tags : list string) (tag : string) :
  In tag tags -> includes tag "ROLE_" = true ->
  exists first, first_role_tag tags = Some first.
Proof.
  intros Hin Hinc. unfold first_role_tag.
  destruct (find _ tags) as [first|] eqn:Hf; [eauto |].
  pose proof (find_none _ _ Hf _ Hin) as Hno. simpl in Hno. congruence.
Qed.

Lemma first_role_tag_listed (decoded : DecodedToken) (tag : string) :
  first_role_tag (default [] (authorities decoded)) = Some tag ->
  exists tags, authorities decoded = Some tags /\ In tag tags /\ includes tag "ROLE_" = true.
Proof.
  destruct decoded as [[tags|]]; simpl; [| discriminate].
  intros Hf. apply find_some in Hf. exists tags. tauto.
Qed.

Lemma accepted_first_tag w u p :
  login_accepted w u p <->
  exists r token decoded tag,
    answered w u p r token decoded
    /\ first_role_tag (default [] (authorities decoded)) = Some tag.
Proof.
  split.
  - intros (r & token & decoded & tags & tag & Ha & Hauth & Hin & Hinc).
    destruct (first_role_tag_exists tags tag Hin Hinc) as [first Hf].
    exists r, token, decoded, first. rewrite Hauth. auto.
  - intros (r & token & decoded & tag & Ha & Hf).
    destruct (first_role_tag_listed _ _ Hf) as (tags & Hauth & Hin & Hinc).
    exists r, token, decoded, tags, tag. auto.
Qed.

Lemma writes_session_trace role tag token id :
  writes (session_trace role tag token id) =
    [("role", tag); ("token", token); (identifier_slot role, id)].
Proof. reflexivity. Qed.

(** C1, the claim as stated, fails: with the claim set
    [ROLE_EMPLOYEE; ROLE_ADMIN_SHADOW] the session is persisted although two
    entries carry [ROLE_], not exactly one. *)
Lemma session_persisted_with_two_role_tags :
  ~ (session_persisted (trace shadow_world "carol" "secret")
     <-> stated_condition shadow_world "carol" "secret").
Proof.
  intros [Hto _].
  assert (Hp : session_persisted (trace shadow_world "carol" "secret")).
  { exists Employee, (JStr "ROLE_EMPLOYEE"), (JStr "header.payload.signature"),
      (JStr "7001"). reflexivity. }
  destruct (Hto Hp) as (r & token & decoded & tags & Ha & Hauth & Hlen).
  destruct Ha as (_ & _ & _ & _ & _ & Hj).
  simpl in Hj. injection Hj as <-. simpl in Hauth. injection Hauth as <-.
  vm_compute in Hlen. discriminate.
Qed.

(** C1 (amended): when the session store takes every write, a Session (the
    role, the token and one identifier slot) is persisted if and only if the
    remote call returned status 200, a subject identifier that is there, a
    non-empty token header that decodes, and a claim set in which at least
    one entry carries [ROLE_]; in every other case no key of the store is
    written. *)
Theorem session_persisted_iff_accepted (w : World) (u p : string) :
  accepts_writes w ->
  (session_persisted (trace w u p) <-> login_accepted w u p)
  /\ (~ login_accepted w u p -> writes (trace w u p) = []).
Proof.
  intros Hacc.
  assert (Hrefuse : ~ exists key value, setItemOk w key value = false).
  { intros (key & value & H). rewrite Hacc in H. discriminate. }
  split; [split |].
  - intros (role & tag & token & id & Hw).
    destruct (trace_cases w u p)
      as [(r & tok & decoded & first & Ha & Hf & _) | [_ [Hnone | Hbad]]].
    + apply accepted_first_tag. exists r, tok, decoded, first. split; assumption.
    + rewrite Hnone in Hw. discriminate.
    + contradiction.
  - intros Hl. apply accepted_first_tag in Hl.
    destruct Hl as (r & token & decoded & tag & Ha & Hf).
    rewrite (trace_session _ _ _ _ _ _ Ha _ Hf) by apply Hacc.
    exists (role_of_tag tag), (JStr tag), (JStr token), (as_text (data r)).
    apply writes_session_trace.
  - intros Hno.
    destruct (trace_cases w u p)
      as [(r & tok & decoded & first & Ha & Hf & _) | [_ [Hnone | Hbad]]].
    + exfalso. apply Hno, accepted_first_tag.
      exists r, tok, decoded, first. split; assumption.
    + exact Hnone.
    + contradiction.
Qed.

(** The Student scenario satisfies the assumption on the store. *)
Lemma session_persisted_iff_accepted_witness :
  accepts_writes student_world
  /\ (session_persisted (trace student_world "bob" "correct")
      <-> login_accepted student_world "bob" "correct")
  /\ (~ login_accepted student_world "bob" "correct"
      -> writes (trace student_world "bob" "correct") = []).
Proof.
  split.
  - intros key value. reflexivity.
  - apply (session_persisted_iff_accepted student_world "bob" "correct").
    intros key value. reflexivity.
Defined.

Lemma first_role_tag_app (before after : list string) (tag : string) :
  Forall (fun t => includes t "ROLE_" = false) before ->
  includes tag "ROLE_" = true ->
  first_role_tag (before ++ tag :: after) = Some tag.
Proof.
  unfold first_role_tag. induction 1 as [|t before Ht _ IH]; intros Htag; simpl.
  - rewrite Htag. reflexivity.
  - rewrite Ht. apply IH, Htag.
Qed.

Lemma first_role_tag_none (tags : list string) :
  Forall (fun t => includes t "ROLE_" = false) tags ->
  first_role_tag tags = None.
Proof.
  unfold first_role_tag. induction 1 as [|t tags Ht _ IH]; simpl;
    [reflexivity | rewrite Ht; exact IH].
Qed.

(** C2: among several entries that carry [ROLE_] the first one in sequence
    order is the role of the session, whatever follows it; with the claim
    set [ROLE_EMPLOYEE; ROLE_ADMIN_SHADOW] the login goes through as
    Employee. *)
Theorem first_role_entry_wins (w : World) (u p : string)
    (r : Response) (token : string) (decoded : DecodedToken) :
  answered w u p r token decoded ->
  accepts_writes w ->
  (forall before tag after,
      authorities decoded = Some (before ++ tag :: after) ->
      Forall (fun t => includes t "ROLE_" = false) before ->
      includes tag "ROLE_" = true ->
      userRole_of decoded = JStr tag
      /\ trace w u p =
           session_trace (role_of_tag tag) (JStr tag) (JStr token) (as_text (data r)))
  /\ (authorities decoded = Some ["ROLE_EMPLOYEE"; "ROLE_ADMIN_SHADOW"] ->
      userRole_of decoded = JStr "ROLE_EMPLOYEE"
      /\ trace w u p =
           session_trace Employee (JStr "ROLE_EMPLOYEE") (JStr token) (as_text (data r))).
Proof.
  intros Ha Hacc.
  assert (Hgen : forall before tag after,
             authorities decoded = Some (before ++ tag :: after) ->
             Forall (fun t => includes t "ROLE_" = false) before ->
             includes tag "ROLE_" = true ->
             userRole_of decoded = JStr tag
             /\ trace w u p =
                  session_trace (role_of_tag tag) (JStr tag) (JStr token)
                    (as_text (data r))).
  { intros before tag after Hauth Hb Ht.
    assert (Hf : first_role_tag (default [] (authorities decoded)) = Some tag)
      by (rewrite Hauth; apply first_role_tag_app; assumption).
    split.
    - rewrite userRole_of_first, Hf. reflexivity.
    - apply (trace_session _ _ _ _ _ _ Ha _ Hf); apply Hacc. }
  split; [exact Hgen |].
  intros Hauth. apply (Hgen [] "ROLE_EMPLOYEE" ["ROLE_ADMIN_SHADOW"]);
    [exact Hauth | constructor | reflexivity].
Qed.

(** The scenario with the two role tags goes through as Employee. *)
Lemma first_role_entry_wins_witness :
  accepts_writes shadow_world
  /\ trace shadow_world "carol" "secret" =
       session_trace Employee (JStr "ROLE_EMPLOYEE")
         (JStr "header.payload.signature") (JStr "7001").
Proof.
  split; [(intros key value; reflexivity) |].
  apply (first_role_entry_wins shadow_world "carol" "secret"
           {| status := 200; data := JNum 7001;
              headers := {[ "jwt-token" := "header.payload.signature" ]} |}
           "header.payload.signature"
           {| authorities := Some ["ROLE_EMPLOYEE"; "ROLE_ADMIN_SHADOW"] |}).
  - unfold answered. repeat split; discriminate.
  - (intros key value; reflexivity).
  - reflexivity.
Defined.

(** C3, the claim as stated, fails: the tag [ROLE_EMPLOYEE,ROLE_GUEST]
    contains [ROLE_EMPLOYEE], and the login goes through as a Guest, not as
    an Employee: [ROLE_GUEST] is tested first. *)
Lemma employee_tag_taken_as_guest :
  includes "ROLE_EMPLOYEE,ROLE_GUEST" "ROLE_EMPLOYEE" = true
  /\ trace both_tags_world "erin" "pw" =
       session_trace Guest (JStr "ROLE_EMPLOYEE,ROLE_GUEST")
         (JStr "header.payload.signature") (JStr "E-9")
  /\ trace both_tags_world "erin" "pw" <>
       session_trace Employee (JStr "ROLE_EMPLOYEE,ROLE_GUEST")
         (JStr "header.payload.signature") (JStr "E-9").
Proof.
  split; [reflexivity |]. split; [reflexivity |].
  intros H. vm_compute in H. discriminate.
Qed.

(** C3 (amended): the matched tag gives the role by substring containment,
    tested in this order: a tag with [ROLE_GUEST] is a Guest; a tag with
    [ROLE_EMPLOYEE] and without [ROLE_GUEST] is an Employee; every other
    matched tag is a Student.  A claim set in which no entry carries [ROLE_]
    ends in the blocking alert of the Unauthorized error, with no write and
    no navigation. *)
Theorem role_by_containment (w : World) (u p : string)
    (r : Response) (token : string) (decoded : DecodedToken) :
  answered w u p r token decoded ->
  (forall tag,
      accepts_writes w ->
      first_role_tag (default [] (authorities decoded)) = Some tag ->
      (includes tag "ROLE_GUEST" = true ->
       trace w u p = session_trace Guest (JStr tag) (JStr token) (as_text (data r)))
      /\ (includes tag "ROLE_GUEST" = false ->
          includes tag "ROLE_EMPLOYEE" = true ->
          trace w u p = session_trace Employee (JStr tag) (JStr token) (as_text (data r)))
      /\ (includes tag "ROLE_GUEST" = false ->
          includes tag "ROLE_EMPLOYEE" = false ->
          trace w u p = session_trace Student (JStr tag) (JStr token) (as_text (data r))))
  /\ (Forall (fun t => includes t "ROLE_" = false) (default [] (authorities decoded)) ->
      trace w u p =
        [ SetErrorMessage (JStr "");
          Alert "Error" (JStr "Unauthorized role. Please try again.") ]
      /\ writes (trace w u p) = []
      /\ routings (trace w u p) = []).
Proof.
  intros Ha. split.
  - intros tag Hacc Hf.
    pose proof (trace_session _ _ _ _ _ _ Ha _ Hf
                  (Hacc _ _) (Hacc _ _) (Hacc _ _)) as Ht.
    unfold role_of_tag in Ht.
    repeat split.
    + intros Hg. rewrite Hg in Ht. exact Ht.
    + intros Hg He. rewrite Hg, He in Ht. exact Ht.
    + intros Hg He. rewrite Hg, He in Ht. exact Ht.
  - intros Hnone. apply first_role_tag_none in Hnone.
    rewrite (trace_unauthorized _ _ _ _ _ _ Ha Hnone). repeat split.
Qed.

(** The Guest scenario: the tag [ROLE_GUEST] gives a Guest session. *)
Lemma role_by_containment_witness :
  trace guest_world "gina" "pw" =
    session_trace Guest (JStr "ROLE_GUEST") (JStr "header.payload.signature")
      (JStr "G-17").
Proof.
  apply (role_by_containment guest_world "gina" "pw"
           {| status := 200; data := JStr "G-17";
              headers := {[ "jwt-token" := "header.payload.signature" ]} |}
           "header.payload.signature"
           {| authorities := Some ["ROLE_GUEST"] |}).
  - unfold answered. repeat split; discriminate.
  - (intros key value; reflexivity).
  - reflexivity.
  - reflexivity.
Defined.

Lemma routings_session_trace role tag token id :
  routings (session_trace role tag token id) = [("Main", destination role id)].
Proof. reflexivity. Qed.

(** C4, the claim as stated, fails: a Guest login with the identifier
    [G-17] reaches the router, and the parameter bag of the Guest entry view
    holds the view's name only, not the identifier. *)
Lemma guest_route_without_identifier :
  trace guest_world "gina" "pw" =
    session_trace Guest (JStr "ROLE_GUEST") (JStr "header.payload.signature")
      (JStr "G-17")
  /\ routings (trace guest_world "gina" "pw") = [("Main", guest_destination)]
  /\ ~ passes_identifier guest_destination (JStr "G-17").
Proof.
  split; [reflexivity |]. split; [reflexivity |].
  intros [key H].
  change (entry_params guest_destination)
    with (JObj [("screen", JStr "GuestViolation")]) in H.
  cbn [get_opt own_property] in H.
  destruct (String.eqb "screen" key); discriminate.
Qed.

(** C4 (amended): on every successful login the router is invoked once,
    with [Main] and the destination area of the role; the identifier is
    passed to the entry view, as its [studentNumber] parameter, in the
    Student area only, while the entry views of the Guest and the Employee
    area are given their name and no identifier. *)
Theorem router_dispatch (w : World) (u p : string)
    (r : Response) (token : string) (decoded : DecodedToken) (tag : string) :
  answered w u p r token decoded ->
  first_role_tag (default [] (authorities decoded)) = Some tag ->
  accepts_writes w ->
  routings (trace w u p) = [("Main", destination (role_of_tag tag) (as_text (data r)))]
  /\ (role_of_tag tag = Student ->
      get_opt (entry_params (destination (role_of_tag tag) (as_text (data r))))
        "studentNumber" = as_text (data r))
  /\ (role_of_tag tag = Guest ->
      entry_params (destination (role_of_tag tag) (as_text (data r))) =
        JObj [("screen", JStr "GuestViolation")])
  /\ (role_of_tag tag = Employee ->
      entry_params (destination (role_of_tag tag) (as_text (data r))) =
        JObj [("screen", JStr "EmployeeReport")]).
Proof.
  intros Ha Hf Hacc.
  rewrite (trace_session _ _ _ _ _ _ Ha _ Hf) by apply Hacc.
  split; [apply routings_session_trace |].
  repeat split; intros ->; reflexivity.
Qed.

(** The Student scenario: the router receives the student number. *)
Lemma router_dispatch_witness :
  accepts_writes student_world
  /\ routings (trace student_world "bob" "correct") =
       [("Main", student_destination (JStr "2021001234"))].
Proof.
  split; [(intros key value; reflexivity) |].
  apply (router_dispatch student_world "bob" "correct"
           {| status := 200; data := JStr "2021001234";
              headers := {[ "jwt-token" := "header.payload.signature" ]} |}
           "header.payload.signature"
           {| authorities := Some ["ROLE_STUDENT"] |} "ROLE_STUDENT").
  - unfold answered. repeat split; discriminate.
  - reflexivity.
  - (intros key value; reflexivity).
Defined.

(** C5: a 200 answer whose subject identifier is absent or empty ends in
    the inline message of the MissingSubjectId error; the session store and
    the navigator are left as they were. *)
Theorem missing_subject_identifier (w : World) (u p : string) (r : Response) :
  send w login_url {| username := u; password := p |} = Responded r ->
  status r = 200 ->
  data r = JUndefined \/ data r = JNull \/ data r = JStr "" ->
  trace w u p =
    [ SetErrorMessage (JStr "");
      SetErrorMessage (JStr "Student number not received from server.") ]
  /\ forall st,
      errorMessage (press_login w u p st) =
        JStr "Student number not received from server."
      /\ storage (press_login w u p st) = storage st
      /\ navigated (press_login w u p st) = navigated st
      /\ alerts (press_login w u p st) = alerts st.
Proof.
  intros Hs H200 Hd.
  assert (Ht : truthy (data r) = false)
    by (destruct Hd as [-> | [-> | ->]]; reflexivity).
  unfold press_login. rewrite (trace_missing_subject _ _ _ _ Hs H200 Ht).
  split; [reflexivity |]. intros st. repeat split.
Qed.

(** A 200 answer with an empty body. *)
Lemma missing_subject_identifier_witness :
  trace empty_body_world "bob" "correct" =
    [ SetErrorMessage (JStr "");
      SetErrorMessage (JStr "Student number not received from server.") ].
Proof.
  apply (missing_subject_identifier empty_body_world "bob" "correct"
           {| status := 200; data := JStr "";
              headers := {[ "jwt-token" := "header.payload.signature" ]} |}).
  - reflexivity.
  - reflexivity.
  - right. right. reflexivity.
Defined.

(** C6: when the remote service answers 400 the inline message is exactly
    "Incorrect username or password. Please try again." and the router is
    not invoked. *)
Theorem invalid_credentials_message (w : World) (u p : string) (r : Response) :
  send w login_url {| username := u; password := p |} = Responded r ->
  status r = 400 ->
  trace w u p =
    [ SetErrorMessage (JStr "");
      SetErrorMessage (JStr "Incorrect username or password. Please try again.") ]
  /\ routings (trace w u p) = []
  /\ forall st,
      errorMessage (press_login w u p st) =
        JStr "Incorrect username or password. Please try again."
      /\ navigated (press_login w u p st) = navigated st.
Proof.
  intros Hs H400.
  unfold press_login. rewrite (trace_invalid_credentials _ _ _ _ Hs H400).
  split; [reflexivity |]. split; [reflexivity |].
  intros st. split; reflexivity.
Qed.

(** The wrong-password scenario, from the initial screen. *)
Lemma invalid_credentials_message_witness :
  errorMessage (press_login wrong_password_world "alice" "wrongpass" initial_state) =
    JStr "Incorrect username or password. Please try again."
  /\ navigated (press_login wrong_password_world "alice" "wrongpass" initial_state) = None.
Proof.
  destruct (invalid_credentials_message wrong_password_world "alice" "wrongpass"
              {| status := 400; data := JObj [("message", JStr "Bad credentials")];
                 headers := ∅ |} eq_refl eq_refl) as (_ & _ & H).
  exact (H initial_state).
Defined.

(** X19: with a store that takes every write, the router is invoked exactly
    on the accepted logins. *)
Lemma routed_iff_accepted (w : World) (u p : string) :
  accepts_writes w ->
  (routings (trace w u p) <> [] <-> login_accepted w u p).
Proof.
  intros Hacc. split.
  - intros Hrouted.
    destruct (trace_cases w u p)
      as [(r & token & decoded & tag & Ha & Hf & _) | [Hnone _]];
      [| contradiction].
    apply accepted_first_tag. exists r, token, decoded, tag. split; assumption.
  - intros Hl. apply accepted_first_tag in Hl.
    destruct Hl as (r & token & decoded & tag & Ha & Hf).
    rewrite (trace_session _ _ _ _ _ _ Ha _ Hf) by apply Hacc. discriminate.
Qed.

(** C7: on every valid login (a 200 answer with an identifier, a token
    that decodes to a claim set with a role tag, a store that takes the
    writes) the run is exactly: the writes [role], [token] and the
    identifier slot of the resolved role, in this order, and then the
    router.  Of the three identifier slots the one of the role is the only
    one written; the two others keep what the store held. *)
Theorem one_identifier_slot (w : World) (u p : string)
    (r : Response) (token : string) (decoded : DecodedToken) (tag : string) :
  answered w u p r token decoded ->
  first_role_tag (default [] (authorities decoded)) = Some tag ->
  accepts_writes w ->
  trace w u p =
    [ SetErrorMessage (JStr "");
      SetItem "role" (JStr tag);
      SetItem "token" (JStr token);
      SetItem (identifier_slot (role_of_tag tag)) (as_text (data r));
      NavReplace "Main" (destination (role_of_tag tag) (as_text (data r))) ]
  /\ (forall slot,
        In slot identifier_slots ->
        (exists value, In (slot, value) (writes (trace w u p)))
        <-> slot = identifier_slot (role_of_tag tag))
  /\ forall st,
      storage (press_login w u p st) !! identifier_slot (role_of_tag tag) =
        Some (as_text (data r))
      /\ forall slot,
          In slot identifier_slots ->
          slot <> identifier_slot (role_of_tag tag) ->
          storage (press_login w u p st) !! slot = storage st !! slot.
Proof.
  intros Ha Hf Hacc.
  pose proof (trace_session _ _ _ _ _ _ Ha _ Hf (Hacc _ _) (Hacc _ _) (Hacc _ _))
    as Ht.
  split; [exact Ht |]. split.
  - intros slot Hslot. rewrite Ht, writes_session_trace. split.
    + intros [value [H | [H | [H | []]]]]; injection H as H _.
      * subst slot. simpl in Hslot. intuition discriminate.
      * subst slot. simpl in Hslot. intuition discriminate.
      * symmetry. exact H.
    + intros ->. exists (as_text (data r)). simpl. tauto.
  - intros st. unfold press_login. rewrite Ht. split.
    + rewrite session_trace_storage. apply lookup_insert_eq.
    + intros slot Hin Hne. apply other_slot_untouched; assumption.
Qed.

(** The three roles: a Guest, an Employee and a Student login. *)
Lemma one_identifier_slot_witness :
  trace guest_world "gina" "pw" =
    [ SetErrorMessage (JStr "");
      SetItem "role" (JStr "ROLE_GUEST");
      SetItem "token" (JStr "header.payload.signature");
      SetItem "guestId" (JStr "G-17");
      NavReplace "Main" guest_destination ]
  /\ trace shadow_world "carol" "secret" =
       [ SetErrorMessage (JStr "");
         SetItem "role" (JStr "ROLE_EMPLOYEE");
         SetItem "token" (JStr "header.payload.signature");
         SetItem "employeeNumber" (JStr "7001");
         NavReplace "Main" employee_destination ]
  /\ trace student_world "bob" "correct" =
       [ SetErrorMessage (JStr "");
         SetItem "role" (JStr "ROLE_STUDENT");
         SetItem "token" (JStr "header.payload.signature");
         SetItem "studentNumber" (JStr "2021001234");
         NavReplace "Main" (student_destination (JStr "2021001234")) ].
Proof.
  split; [| split].
  - apply (one_identifier_slot guest_world "gina" "pw"
             {| status := 200; data := JStr "G-17";
                headers := {[ "jwt-token" := "header.payload.signature" ]} |}
             "header.payload.signature"
             {| authorities := Some ["ROLE_GUEST"] |} "ROLE_GUEST").
    + unfold answered. repeat split; discriminate.
    + reflexivity.
    + intros key value. reflexivity.
  - apply (one_identifier_slot shadow_world "carol" "secret"
             {| status := 200; data := JNum 7001;
                headers := {[ "jwt-token" := "header.payload.signature" ]} |}
             "header.payload.signature"
             {| authorities := Some ["ROLE_EMPLOYEE"; "ROLE_ADMIN_SHADOW"] |}
             "ROLE_EMPLOYEE").
    + unfold answered. repeat split; discriminate.
    + reflexivity.
    + intros key value. reflexivity.
  - apply (one_identifier_slot student_world "bob" "correct"
             {| status := 200; data := JStr "2021001234";
                headers := {[ "jwt-token" := "header.payload.signature" ]} |}
             "header.payload.signature"
             {| authorities := Some ["ROLE_STUDENT"] |} "ROLE_STUDENT").
    + unfold answered. repeat split; discriminate.
    + reflexivity.
    + intros key value. reflexivity.
Defined.

(** C8: when the request leaves and no answer arrives, the run is the
    inline message and the blocking alert of the NoResponse error and
    nothing else; the handler returns normally, the session store is as it
    was and the screen has not navigated away, so the button can be pressed
    again. *)
Theorem no_response (w : World) (u p : string) :
  send w login_url {| username := u; password := p |} = NoReply ->
  handleLogin w u p =
    ([ SetErrorMessage (JStr "");
       SetErrorMessage (JStr "No response from server. Check network or server status.");
       Alert "Login Error"
         (JStr "No response from server. Check network or server status.") ],
     Ok tt)
  /\ forall st,
      storage (press_login w u p st) = storage st
      /\ navigated (press_login w u p st) = navigated st
      /\ errorMessage (press_login w u p st) =
           JStr "No response from server. Check network or server status."
      /\ alerts (press_login w u p st) =
           alerts st ++
             [("Login Error",
               JStr "No response from server. Check network or server status.")].
Proof.
  intros Hs.
  assert (Hh : handleLogin w u p =
    ([ SetErrorMessage (JStr "");
       SetErrorMessage (JStr "No response from server. Check network or server status.");
       Alert "Login Error"
         (JStr "No response from server. Check network or server status.") ],
     Ok tt)).
  { unfold handleLogin, attempt, axios_post. rewrite Hs. reflexivity. }
  split; [exact Hh |].
  intros st. unfold press_login, trace. rewrite Hh. repeat split.
Qed.

(** The unreachable service, from the initial screen. *)
Lemma no_response_witness :
  storage (press_login unreachable "bob" "correct" initial_state) = ∅
  /\ navigated (press_login unreachable "bob" "correct" initial_state) = None.
Proof.
  destruct (no_response unreachable "bob" "correct" eq_refl) as [_ H].
  destruct (H initial_state) as (Hst & Hnav & _).
  split; [exact Hst | exact Hnav].
Defined.

(** C9: a token whose payload has no [authorities] claim is read as an
    empty claim set: the run is the blocking alert of the Unauthorized
    error, the handler returns normally, nothing is written and the router
    is not invoked. *)
Theorem missing_authorities (w : World) (u p : string)
    (r : Response) (token : string) (decoded : DecodedToken) :
  answered w u p r token decoded ->
  authorities decoded = None ->
  handleLogin w u p =
    ([ SetErrorMessage (JStr "");
       Alert "Error" (JStr "Unauthorized role. Please try again.") ],
     Ok tt)
  /\ writes (trace w u p) = []
  /\ routings (trace w u p) = [].
Proof.
  intros Ha Hnone.
  assert (Hf : first_role_tag (default [] (authorities decoded)) = None)
    by (rewrite Hnone; reflexivity).
  rewrite (trace_unauthorized _ _ _ _ _ _ Ha Hf).
  split; [| split; reflexivity].
  destruct Ha as (Hs & H200 & Hd & Hh & Hne & Hj).
  unfold handleLogin, attempt, axios_post, authorize, call_jwtDecode, header,
    validateStatus.
  rewrite Hs, H200. cbn. rewrite H200, Hd, Hh. cbn.
  destruct (String.eqb_spec token ""); [contradiction |]. cbn.
  rewrite Hj. cbn. rewrite userRole_of_first, Hf. reflexivity.
Qed.

(** A token without the [authorities] claim. *)
Lemma missing_authorities_witness :
  handleLogin no_claim_world "bob" "correct" =
    ([ SetErrorMessage (JStr "");
       Alert "Error" (JStr "Unauthorized role. Please try again.") ],
     Ok tt).
Proof.
  apply (missing_authorities no_claim_world "bob" "correct"
           {| status := 200; data := JStr "2021001234";
              headers := {[ "jwt-token" := "header.payload.signature" ]} |}
           "header.payload.signature" {| authorities := None |}).
  - unfold answered. repeat split; discriminate.
  - reflexivity.
Defined.

Lemma toString_parses (n : Z) :
  option_map Z.of_int (NilZero.int_of_string (toString n)) = Some n.
Proof.
  unfold toString. rewrite NilZero.isi.
  - simpl. f_equal. apply DecimalZ.of_to.
  - intros H. assert (Hn : n = 0) by (rewrite <- (DecimalZ.of_to n), H; reflexivity).
    subst n. discriminate.
  - intros H. assert (Hn : n = 0) by (rewrite <- (DecimalZ.of_to n), H; reflexivity).
    subst n. discriminate.
Qed.

(** C10: a 200 answer whose subject identifier is the number 0 is treated
    as one without identifier and ends in the MissingSubjectId message; any
    other number (a safe integer) passes the check and is turned into its
    string form, the decimal numeral that reads back as the number, and that
    string is what the identifier slot of the store receives. *)
Theorem zero_subject_identifier (w : World) (u p : string) (r : Response) :
  send w login_url {| username := u; password := p |} = Responded r ->
  status r = 200 ->
  (data r = JNum 0 ->
   trace w u p =
     [ SetErrorMessage (JStr "");
       SetErrorMessage (JStr "Student number not received from server.") ])
  /\ (forall n token decoded tag,
         data r = JNum n ->
         n <> 0 ->
         safe_integer n ->
         headers r !! "jwt-token" = Some token ->
         token <> "" ->
         jwtDecode w (JStr token) = Some decoded ->
         first_role_tag (default [] (authorities decoded)) = Some tag ->
         accepts_writes w ->
         option_map Z.of_int (NilZero.int_of_string (toString n)) = Some n
         /\ trace w u p =
              session_trace (role_of_tag tag) (JStr tag) (JStr token)
                (JStr (toString n))
         /\ forall st,
              storage (press_login w u p st) !! identifier_slot (role_of_tag tag) =
                Some (JStr (toString n))).
Proof.
  intros Hs H200. split.
  - intros Hd. apply (trace_missing_subject _ _ _ _ Hs H200).
    rewrite Hd. reflexivity.
  - intros n token decoded tag Hd Hn _ Hh Hne Hj Hf Hacc.
    assert (Ha : answered w u p r token decoded).
    { repeat split; try assumption. rewrite Hd. simpl.
      destruct (Z.eqb_spec n 0); [contradiction | reflexivity]. }
    assert (Ht : trace w u p =
                   session_trace (role_of_tag tag) (JStr tag) (JStr token)
                     (JStr (toString n))).
    { rewrite (trace_session _ _ _ _ _ _ Ha _ Hf) by apply Hacc.
      rewrite Hd. reflexivity. }
    split; [apply toString_parses |]. split; [exact Ht |].
    intros st. unfold press_login. rewrite Ht, session_trace_storage.
    apply lookup_insert_eq.
Qed.

(** The number 0 is taken as missing; the number 7001 is stored as the
    text "7001". *)
Lemma zero_subject_identifier_witness :
  trace zero_body_world "bob" "correct" =
    [ SetErrorMessage (JStr "");
      SetErrorMessage (JStr "Student number not received from server.") ]
  /\ trace shadow_world "carol" "secret" =
       session_trace Employee (JStr "ROLE_EMPLOYEE")
         (JStr "header.payload.signature") (JStr "7001")
  /\ storage (press_login shadow_world "carol" "secret" initial_state)
       !! "employeeNumber" = Some (JStr "7001").
Proof.
  split.
  - apply (zero_subject_identifier zero_body_world "bob" "correct"
             {| status := 200; data := JNum 0;
                headers := {[ "jwt-token" := "header.payload.signature" ]} |});
      reflexivity.
  - destruct (zero_subject_identifier shadow_world "carol" "secret"
                {| status := 200; data := JNum 7001;
                   headers := {[ "jwt-token" := "header.payload.signature" ]} |}
                eq_refl eq_refl) as [_ H].
    destruct (H 7001 "header.payload.signature"
                {| authorities := Some ["ROLE_EMPLOYEE"; "ROLE_ADMIN_SHADOW"] |}
                "ROLE_EMPLOYEE") as (_ & Ht & Hst).
    + reflexivity.
    + discriminate.
    + unfold safe_integer. split; reflexivity.
    + reflexivity.
    + discriminate.
    + reflexivity.
    + reflexivity.
    + intros key value. reflexivity.
    + split; [exact Ht | exact (Hst initial_state)].
Defined.

(** ** Every run, classified *)

Lemma persist_and_route_result (w : World) (tag : string) (token id : JsVal) :
  persist_and_route w (JStr tag) token id =
    if setItemOk w "role" (JStr tag) then
      if setItemOk w "token" token then
        if setItemOk w (identifier_slot (role_of_tag tag)) id then
          ([ SetItem "role" (JStr tag); SetItem "token" token;
             SetItem (identifier_slot (role_of_tag tag)) id;
             NavReplace "Main" (destination (role_of_tag tag) id) ], Ok tt)
        else ([ SetItem "role" (JStr tag); SetItem "token" token ], Throw plain_error)
      else ([ SetItem "role" (JStr tag) ], Throw plain_error)
    else ([], Throw plain_error).
Proof.
  unfold persist_and_route, setItem, role_of_tag.
  destruct (setItemOk w "role" (JStr tag)); cbn; [| reflexivity].
  destruct (setItemOk w "token" token); cbn; [| reflexivity].
  destruct (includes tag "ROLE_GUEST"); cbn.
  - destruct (setItemOk w "guestId" id); reflexivity.
  - destruct (includes tag "ROLE_EMPLOYEE"); cbn.
    + destruct (setItemOk w "employeeNumber" id); reflexivity.
    + destruct (setItemOk w "studentNumber" id); reflexivity.
Qed.

(** The whole result of the handler on an answered request. *)
Lemma handleLogin_answered (w : World) (u p : string)
    (r : Response) (token : string) (decoded : DecodedToken) :
  answered w u p r token decoded ->
  handleLogin w u p =
    match first_role_tag (default [] (authorities decoded)) with
    | None =>
        ([ SetErrorMessage (JStr "");
           Alert "Error" (JStr "Unauthorized role. Please try again.") ], Ok tt)
    | Some tag =>
        let '(t, o) := try_catch
                         (persist_and_route w (JStr tag) (JStr token) (as_text (data r)))
                         on_error in
        (SetErrorMessage (JStr "") :: t, o)
    end.
Proof.
  intros (Hs & H200 & Hd & Hh & Hne & Hj).
  unfold handleLogin, attempt, axios_post, authorize, call_jwtDecode, header.
  rewrite Hs. unfold validateStatus. rewrite H200. cbn.
  rewrite H200, Hd, Hh. cbn.
  destruct (String.eqb_spec token ""); [contradiction |]. cbn.
  rewrite Hj. cbn. rewrite userRole_of_first.
  destruct (first_role_tag _) as [tag|] eqn:Hf; [| reflexivity].
  rewrite (truthy_role_tag _ (first_role_tag_includes _ _ Hf)). cbn.
  destruct (persist_and_route _ _ _ _) as [t [[]|e]]; cbn; [reflexivity |].
  destruct (on_error e). reflexivity.
Qed.

Lemma truthy_js_or (a b : JsVal) : truthy b = true -> truthy (js_or a b) = true.
Proof. unfold js_or. destruct (truthy a) eqn:Ha; auto. Qed.

(** The handler returns normally, and its effects have one of the five
    shapes. *)
Lemma run_shape (w : World) (u p : string) :
  exists t, handleLogin w u p = (t, Ok tt) /\ Shape t.
Proof.
  destruct (send w login_url {| username := u; password := p |}) as [r| |] eqn:Hs.
  - destruct (Z.eqb_spec (status r) 200) as [H200|Hn200].
    + destruct (truthy (data r)) eqn:Hd.
      * destruct (truthy (header r "jwt-token")) eqn:Ht.
        -- unfold header in Ht.
           destruct (headers r !! "jwt-token") as [token|] eqn:Hh; [|discriminate].
           assert (Hne : token <> "") by (intros ->; discriminate).
           destruct (jwtDecode w (JStr token)) as [decoded|] eqn:Hj.
           ++ assert (Ha : answered w u p r token decoded) by (repeat split; assumption).
              rewrite (handleLogin_answered _ _ _ _ _ _ Ha).
              destruct (first_role_tag _) as [tag|] eqn:Hf.
              ** pose proof (first_role_tag_includes _ _ Hf) as Hinc.
                 rewrite persist_and_route_result.
                 destruct (setItemOk w "role" (JStr tag));
                   [destruct (setItemOk w "token" (JStr token));
                    [destruct (setItemOk w (identifier_slot (role_of_tag tag))
                                 (as_text (data r))) |] |];
                   cbn; eexists; (split; [reflexivity |]).
                 --- apply shape_session; assumption.
                 --- apply (shape_refused tag token (data r) 2); auto.
                 --- apply (shape_refused tag token (data r) 1); auto.
                 --- apply (shape_refused tag token (data r) 0); auto.
              ** eexists. split; [reflexivity | apply shape_unauthorized].
           ++ exists (SetErrorMessage (JStr "") :: request_error). split.
              ** open_flow. rewrite Hs, H200. cbn. rewrite H200, Hd, Hh. cbn.
                 destruct (String.eqb_spec token ""); [contradiction|]. cbn.
                 rewrite Hj. reflexivity.
              ** apply shape_alert. reflexivity.
        -- eexists. split.
           ++ open_flow. rewrite Hs, H200. cbn. rewrite H200, Hd. cbn.
              unfold header in Ht. rewrite Ht. reflexivity.
           ++ apply shape_inline. simpl. tauto.
      * eexists. split.
        -- open_flow. rewrite Hs, H200. cbn. rewrite H200, Hd. reflexivity.
        -- apply shape_inline. simpl. tauto.
    + unfold handleLogin, attempt, axios_post, validateStatus, on_error. rewrite Hs.
      destruct ((200 <=? status r) && (status r <? 300)); cbn.
      * destruct (Z.eqb_spec (status r) 200); [contradiction|].
        eexists. split; [reflexivity | apply shape_inline; simpl; tauto].
      * destruct (status r =? 400).
        -- eexists. split; [reflexivity | apply shape_inline; simpl; tauto].
        -- eexists. split; [reflexivity |].
           apply shape_alert, truthy_js_or. reflexivity.
  - eexists. split.
    + unfold handleLogin, attempt, axios_post. rewrite Hs. reflexivity.
    + apply shape_alert. reflexivity.
  - exists (SetErrorMessage (JStr "") :: request_error). split.
    + unfold handleLogin, attempt, axios_post. rewrite Hs. reflexivity.
    + apply shape_alert. reflexivity.
Qed.

(** X1: the handler never lets an exception escape, and the effects of a
    run always have one of five forms: a session, a batch cut short by a
    refused write followed by the request-error message and alert, one of
    the four fixed inline messages, the Unauthorized alert, or an inline
    message with the same text in an alert. *)
Theorem handleLogin_shape (w : World) (u p : string) :
  handleLogin w u p = (trace w u p, Ok tt) /\ Shape (trace w u p).
Proof.
  destruct (run_shape w u p) as (t & Hrun & Hshape).
  unfold trace. rewrite Hrun. split; [reflexivity | exact Hshape].
Qed.

(** ** The remaining paths of the handler *)

Lemma run_inline (st : AppState) (m : JsVal) :
  run st [ SetErrorMessage (JStr ""); SetErrorMessage m ] =
    {| errorMessage := m; storage := storage st;
       alerts := alerts st; navigated := navigated st |}.
Proof. reflexivity. Qed.

Lemma run_inline_alert (st : AppState) (m : JsVal) (title : string) :
  run st [ SetErrorMessage (JStr ""); SetErrorMessage m; Alert title m ] =
    {| errorMessage := m; storage := storage st;
       alerts := alerts st ++ [(title, m)]; navigated := navigated st |}.
Proof. reflexivity. Qed.

(** X2: a 200 answer with a subject identifier but without the [jwt-token]
    header, or with an empty one, ends in the inline message "Token not
    received from server."; nothing is stored, no alert, no navigation. *)
Theorem missing_token (w : World) (u p : string) (r : Response) :
  send w login_url {| username := u; password := p |} = Responded r ->
  status r = 200 ->
  truthy (data r) = true ->
  headers r !! "jwt-token" = None \/ headers r !! "jwt-token" = Some "" ->
  handleLogin w u p =
    ([ SetErrorMessage (JStr "");
       SetErrorMessage (JStr "Token not received from server.") ], Ok tt)
  /\ forall st,
      press_login w u p st =
        {| errorMessage := JStr "Token not received from server.";
           storage := storage st; alerts := alerts st; navigated := navigated st |}.
Proof.
  intros Hs H200 Hd Hh.
  assert (Hrun : handleLogin w u p =
    ([ SetErrorMessage (JStr "");
       SetErrorMessage (JStr "Token not received from server.") ], Ok tt)).
  { open_flow. rewrite Hs, H200. cbn. rewrite H200, Hd. cbn.
    destruct Hh as [-> | ->]; reflexivity. }
  split; [exact Hrun |].
  intros st. unfold press_login, trace. rewrite Hrun. apply run_inline.
Qed.

(** A 200 answer with a body and no header at all. *)
Lemma missing_token_witness :
  handleLogin (service 200 (JStr "2021001234") None (Some ["ROLE_STUDENT"]))
    "bob" "correct" =
    ([ SetErrorMessage (JStr "");
       SetErrorMessage (JStr "Token not received from server.") ], Ok tt).
Proof.
  apply (missing_token (service 200 (JStr "2021001234") None (Some ["ROLE_STUDENT"]))
           "bob" "correct"
           {| status := 200; data := JStr "2021001234"; headers := ∅ |}).
  - reflexivity.
  - reflexivity.
  - reflexivity.
  - left. reflexivity.
Defined.

(** X3: when the token of a 200 answer does not decode, the exception of
    the decoder is caught: the run is the "Request error. Please try again."
    message with its alert, and nothing is stored or routed. *)
Theorem undecodable_token (w : World) (u p : string) (r : Response) (token : string) :
  send w login_url {| username := u; password := p |} = Responded r ->
  status r = 200 ->
  truthy (data r) = true ->
  headers r !! "jwt-token" = Some token ->
  token <> "" ->
  jwtDecode w (JStr token) = None ->
  handleLogin w u p = (SetErrorMessage (JStr "") :: request_error, Ok tt)
  /\ forall st,
      storage (press_login w u p st) = storage st
      /\ navigated (press_login w u p st) = navigated st.
Proof.
  intros Hs H200 Hd Hh Hne Hj.
  assert (Hrun : handleLogin w u p = (SetErrorMessage (JStr "") :: request_error, Ok tt)).
  { open_flow. rewrite Hs, H200. cbn. rewrite H200, Hd, Hh. cbn.
    destruct (String.eqb_spec token ""); [contradiction|]. cbn.
    rewrite Hj. reflexivity. }
  split; [exact Hrun |].
  intros st. unfold press_login, trace. rewrite Hrun. split; reflexivity.
Qed.

(** The Student answer with a decoder that throws. *)
Lemma undecodable_token_witness :
  handleLogin garbled_token_world "bob" "correct" =
    (SetErrorMessage (JStr "") :: request_error, Ok tt).
Proof.
  apply (undecodable_token garbled_token_world "bob" "correct"
           {| status := 200; data := JStr "2021001234";
              headers := {[ "jwt-token" := "header.payload.signature" ]} |}
           "header.payload.signature").
  - reflexivity.
  - reflexivity.
  - reflexivity.
  - reflexivity.
  - discriminate.
  - reflexivity.
Defined.

(** X4: a success status other than 200 (201, 204, ...) is not a login: the
    run is the inline message "Login failed. Please check your credentials."
    and nothing else, whatever the body and the headers are. *)
Theorem other_success_status (w : World) (u p : string) (r : Response) :
  send w login_url {| username := u; password := p |} = Responded r ->
  200 < status r < 300 ->
  handleLogin w u p =
    ([ SetErrorMessage (JStr "");
       SetErrorMessage (JStr "Login failed. Please check your credentials.") ], Ok tt)
  /\ forall st,
      press_login w u p st =
        {| errorMessage := JStr "Login failed. Please check your credentials.";
           storage := storage st; alerts := alerts st; navigated := navigated st |}.
Proof.
  intros Hs [Hlo Hhi].
  assert (Hrun : handleLogin w u p =
    ([ SetErrorMessage (JStr "");
       SetErrorMessage (JStr "Login failed. Please check your credentials.") ], Ok tt)).
  { unfold handleLogin, attempt, axios_post, validateStatus. rewrite Hs.
    replace (200 <=? status r) with true by (symmetry; apply Z.leb_le; lia).
    replace (status r <? 300) with true by (symmetry; apply Z.ltb_lt; lia).
    cbn.
    replace (status r =? 200) with false by (symmetry; apply Z.eqb_neq; lia).
    reflexivity. }
  split; [exact Hrun |].
  intros st. unfold press_login, trace. rewrite Hrun. apply run_inline.
Qed.

(** A 201 answer that carries everything a login needs. *)
Lemma other_success_status_witness :
  handleLogin (service 201 (JStr "2021001234") (Some "header.payload.signature")
                 (Some ["ROLE_STUDENT"])) "bob" "correct" =
    ([ SetErrorMessage (JStr "");
       SetErrorMessage (JStr "Login failed. Please check your credentials.") ], Ok tt).
Proof.
  apply (other_success_status
           (service 201 (JStr "2021001234") (Some "header.payload.signature")
              (Some ["ROLE_STUDENT"])) "bob" "correct"
           {| status := 201; data := JStr "2021001234";
              headers := {[ "jwt-token" := "header.payload.signature" ]} |}).
  - reflexivity.
  - simpl. lia.
Defined.

(** X5: an answer whose status is neither 2xx nor 400 shows, inline and in
    an alert titled "Login Error", the [message] of the body when the body
    is an object with a non-empty one, and "Invalid request. Please check
    your input." when there is no such message; nothing is stored or
    routed. *)
Theorem server_rejected (w : World) (u p : string) (r : Response) :
  send w login_url {| username := u; password := p |} = Responded r ->
  status r < 200 \/ 300 <= status r ->
  status r <> 400 ->
  (forall text,
      get_opt (data r) "message" = JStr text -> text <> "" ->
      handleLogin w u p =
        ([ SetErrorMessage (JStr ""); SetErrorMessage (JStr text);
           Alert "Login Error" (JStr text) ], Ok tt))
  /\ (truthy (get_opt (data r) "message") = false ->
      handleLogin w u p =
        ([ SetErrorMessage (JStr "");
           SetErrorMessage (JStr "Invalid request. Please check your input.");
           Alert "Login Error" (JStr "Invalid request. Please check your input.") ],
         Ok tt))
  /\ writes (trace w u p) = []
  /\ routings (trace w u p) = [].
Proof.
  intros Hs Hout H400.
  assert (Hrun : handleLogin w u p =
    let m := js_or (get_opt (data r) "message")
               (JStr "Invalid request. Please check your input.") in
    ([ SetErrorMessage (JStr ""); SetErrorMessage m; Alert "Login Error" m ], Ok tt)).
  { unfold handleLogin, attempt, axios_post, validateStatus, on_error. rewrite Hs.
    replace ((200 <=? status r) && (status r <? 300)) with false.
    2:{ symmetry. apply andb_false_iff.
        destruct Hout; [left; apply Z.leb_gt | right; apply Z.ltb_ge]; lia. }
    cbn.
    replace (status r =? 400) with false by (symmetry; apply Z.eqb_neq; exact H400).
    reflexivity. }
  repeat split.
  - intros text Hm Hne. rewrite Hrun. unfold js_or. rewrite Hm. simpl.
    destruct (String.eqb_spec text ""); [contradiction | reflexivity].
  - intros Hm. rewrite Hrun. unfold js_or. rewrite Hm. reflexivity.
  - unfold trace. rewrite Hrun. reflexivity.
  - unfold trace. rewrite Hrun. reflexivity.
Qed.

(** A 503 answer with a message. *)
Lemma server_rejected_witness :
  handleLogin (service 503 (JObj [("message", JStr "Maintenance")]) None None)
    "bob" "correct" =
    ([ SetErrorMessage (JStr ""); SetErrorMessage (JStr "Maintenance");
       Alert "Login Error" (JStr "Maintenance") ], Ok tt).
Proof.
  apply (server_rejected
           (service 503 (JObj [("message", JStr "Maintenance")]) None None)
           "bob" "correct"
           {| status := 503; data := JObj [("message", JStr "Maintenance")];
              headers := ∅ |}).
  - reflexivity.
  - right. simpl. lia.
  - discriminate.
  - reflexivity.
  - discriminate.
Defined.

(** X6: when the request cannot even be sent, the run is the "Request
    error. Please try again." message with its alert; the store and the
    navigator are untouched. *)
Theorem request_not_sent (w : World) (u p : string) :
  send w login_url {| username := u; password := p |} = NotSent ->
  handleLogin w u p = (SetErrorMessage (JStr "") :: request_error, Ok tt)
  /\ forall st,
      storage (press_login w u p st) = storage st
      /\ navigated (press_login w u p st) = navigated st.
Proof.
  intros Hs.
  assert (Hrun : handleLogin w u p = (SetErrorMessage (JStr "") :: request_error, Ok tt)).
  { unfold handleLogin, attempt, axios_post. rewrite Hs. reflexivity. }
  split; [exact Hrun |].
  intros st. unfold press_login, trace. rewrite Hrun. split; reflexivity.
Qed.

(** The world in which no request can be made. *)
Lemma request_not_sent_witness :
  handleLogin unsendable "bob" "correct" =
    (SetErrorMessage (JStr "") :: request_error, Ok tt).
Proof. apply (request_not_sent unsendable "bob" "correct"). reflexivity. Defined.

(** ** What every run keeps *)

Lemma toString_nonempty (n : Z) : toString n <> "".
Proof.
  unfold toString. destruct (Z.to_int n) as [d|d]; simpl; [| discriminate].
  destruct d; discriminate.
Qed.

Lemma as_text_truthy (d : JsVal) : truthy d = true -> truthy (as_text d) = true.
Proof.
  destruct d; simpl; auto. intros _.
  destruct (String.eqb_spec (toString n) ""); [| reflexivity].
  exfalso. eapply toString_nonempty; eassumption.
Qed.

Lemma as_text_not_number (d : JsVal) (n : Z) : as_text d <> JNum n.
Proof. destruct d; discriminate. Qed.

(** X7: when the store refuses one of the three writes of an accepted
    login, the run stops there with the "Request error. Please try again."
    message and alert and the router is not invoked; the writes made before
    the refused one are not undone: a refused token leaves the role in the
    store, a refused identifier leaves the role and the token. *)
Theorem refused_write (w : World) (u p : string)
    (r : Response) (token : string) (decoded : DecodedToken) (tag : string) :
  answered w u p r token decoded ->
  first_role_tag (default [] (authorities decoded)) = Some tag ->
  (setItemOk w "role" (JStr tag) = false ->
   handleLogin w u p = (SetErrorMessage (JStr "") :: request_error, Ok tt)
   /\ forall st,
       storage (press_login w u p st) = storage st
       /\ navigated (press_login w u p st) = navigated st)
  /\ (setItemOk w "role" (JStr tag) = true ->
      setItemOk w "token" (JStr token) = false ->
      handleLogin w u p =
        (SetErrorMessage (JStr "") :: SetItem "role" (JStr tag) :: request_error,
         Ok tt)
      /\ forall st,
          storage (press_login w u p st) = <["role" := JStr tag]> (storage st)
          /\ navigated (press_login w u p st) = navigated st)
  /\ (setItemOk w "role" (JStr tag) = true ->
      setItemOk w "token" (JStr token) = true ->
      setItemOk w (identifier_slot (role_of_tag tag)) (as_text (data r)) = false ->
      handleLogin w u p =
        (SetErrorMessage (JStr "") :: SetItem "role" (JStr tag)
           :: SetItem "token" (JStr token) :: request_error,
         Ok tt)
      /\ forall st,
          storage (press_login w u p st) =
            <["token" := JStr token]> (<["role" := JStr tag]> (storage st))
          /\ navigated (press_login w u p st) = navigated st).
Proof.
  intros Ha Hf.
  pose proof (handleLogin_answered _ _ _ _ _ _ Ha) as Hrun.
  rewrite Hf, persist_and_route_result in Hrun.
  split; [| split].
  - intros H1. rewrite H1 in Hrun. rewrite Hrun.
    split; [reflexivity |].
    intros st. unfold press_login, trace. rewrite Hrun. split; reflexivity.
  - intros H1 H2. rewrite H1, H2 in Hrun. rewrite Hrun.
    split; [reflexivity |].
    intros st. unfold press_login, trace. rewrite Hrun. split; reflexivity.
  - intros H1 H2 H3. rewrite H1, H2, H3 in Hrun. rewrite Hrun.
    split; [reflexivity |].
    intros st. unfold press_login, trace. rewrite Hrun. split; reflexivity.
Qed.

(** The Student scenario with a store that refuses the token: the role is
    in the store afterwards. *)
Lemma refused_write_witness :
  handleLogin (refusing_store student_world "token") "bob" "correct" =
    (SetErrorMessage (JStr "") :: SetItem "role" (JStr "ROLE_STUDENT")
       :: request_error, Ok tt)
  /\ storage (press_login (refusing_store student_world "token")
                "bob" "correct" initial_state) !! "role" =
       Some (JStr "ROLE_STUDENT").
Proof.
  destruct (refused_write (refusing_store student_world "token") "bob" "correct"
              {| status := 200; data := JStr "2021001234";
                 headers := {[ "jwt-token" := "header.payload.signature" ]} |}
              "header.payload.signature"
              {| authorities := Some ["ROLE_STUDENT"] |} "ROLE_STUDENT")
    as (_ & Htoken & _).
  - unfold answered. repeat split; discriminate.
  - reflexivity.
  - destruct (Htoken eq_refl eq_refl) as [Hrun Hst].
    split; [exact Hrun |].
    destruct (Hst initial_state) as [Hs _]. rewrite Hs. reflexivity.
Defined.

Lemma writes_app (t1 t2 : list Effect) : writes (t1 ++ t2) = writes t1 ++ writes t2.
Proof. apply flat_map_app. Qed.

Lemma writes_shape (t : list Effect) :
  Shape t ->
  writes t = []
  \/ exists tag token d n,
       includes tag "ROLE_" = true /\ token <> "" /\ truthy d = true
       /\ (1 <= n <= 3)%nat
       /\ writes t =
            firstn n [ ("role", JStr tag); ("token", JStr token);
                       (identifier_slot (role_of_tag tag), as_text d) ].
Proof.
  intros [tag token d Hi Ht Hd | tag token d n Hi Ht Hd Hn | m _ | | m _];
    try (left; reflexivity).
  - right. exists tag, token, d, 3%nat. repeat split; auto; lia.
  - destruct n as [|n]; [left; reflexivity |].
    right. exists tag, token, d, (S n). repeat split; auto; try lia.
    destruct n as [|[|n]]; [reflexivity | reflexivity | lia].
Qed.

(** X8: in every run the writes to the session store are an initial part
    of the batch [role], [token], identifier slot: the token is never stored
    without the role before it, an identifier never without both, and no
    other key is ever written.  The stored role carries [ROLE_] and the
    stored token is not empty. *)
Theorem writes_in_batch_order (w : World) (u p : string) :
  writes (trace w u p) = []
  \/ exists tag token d n,
       includes tag "ROLE_" = true /\ token <> "" /\ truthy d = true
       /\ (1 <= n <= 3)%nat
       /\ writes (trace w u p) =
            firstn n [ ("role", JStr tag); ("token", JStr token);
                       (identifier_slot (role_of_tag tag), as_text d) ].
Proof.
  destruct (run_shape w u p) as (t & Hrun & Hshape).
  unfold trace. rewrite Hrun. apply writes_shape, Hshape.
Qed.

(** X9: whatever the service sends, a value stored in one of the three
    identifier slots is never a number and never empty: numbers are stored
    as their decimal string, and a missing identifier stops the run before
    any write. *)
Theorem stored_identifier_is_text (w : World) (u p : string)
    (slot : string) (value : JsVal) :
  In slot identifier_slots ->
  In (slot, value) (writes (trace w u p)) ->
  truthy value = true /\ forall n, value <> JNum n.
Proof.
  intros Hslot Hin.
  destruct (run_shape w u p) as (t & Hrun & Hshape).
  unfold trace in Hin. rewrite Hrun in Hin. cbn [fst] in Hin.
  destruct (writes_shape t Hshape)
    as [Hnone | (tag & token & d & n & _ & _ & Hd & _ & Hw)].
  - rewrite Hnone in Hin. contradiction.
  - rewrite Hw in Hin.
    assert (Hcase : ("role", JStr tag) = (slot, value)
                    \/ ("token", JStr token) = (slot, value)
                    \/ (identifier_slot (role_of_tag tag), as_text d) = (slot, value)).
    { destruct n as [|[|[|n]]]; simpl in Hin; rewrite ?firstn_nil in Hin;
        simpl in Hin; tauto. }
    destruct Hcase as [Hc | [Hc | Hc]]; injection Hc as <- <-.
    + simpl in Hslot. intuition discriminate.
    + simpl in Hslot. intuition discriminate.
    + split; [apply as_text_truthy, Hd | intros k; apply as_text_not_number].
Qed.

(** A numeric identifier is stored as a string. *)
Lemma stored_identifier_is_text_witness :
  truthy (JStr "7001") = true /\ forall n, JStr "7001" <> JNum n.
Proof.
  apply (stored_identifier_is_text shadow_world "carol" "secret" "employeeNumber").
  - vm_compute. tauto.
  - vm_compute. tauto.
Defined.

(** ** The store across runs *)

Lemma identifier_slot_inj (a b : Role) : identifier_slot a = identifier_slot b -> a = b.
Proof. destruct a, b; simpl; intros H; try reflexivity; discriminate. Qed.

Lemma identifier_slot_not_role (a : Role) :
  "role" <> identifier_slot a /\ "token" <> identifier_slot a.
Proof. destruct a; split; discriminate. Qed.

(** X11: a login does not clear the session of an earlier one: after a
    login in one role and then a login in another role, the store holds the
    role and the token of the second login, and still holds the identifier
    of the first login in the slot of the first role. *)
Theorem earlier_identifier_stays
    (w1 w2 : World) (u1 p1 u2 p2 : string)
    (r1 r2 : Response) (token1 token2 : string)
    (decoded1 decoded2 : DecodedToken) (tag1 tag2 : string) (st : AppState) :
  answered w1 u1 p1 r1 token1 decoded1 ->
  first_role_tag (default [] (authorities decoded1)) = Some tag1 ->
  accepts_writes w1 ->
  answered w2 u2 p2 r2 token2 decoded2 ->
  first_role_tag (default [] (authorities decoded2)) = Some tag2 ->
  accepts_writes w2 ->
  role_of_tag tag1 <> role_of_tag tag2 ->
  let after := storage (press_login w2 u2 p2 (press_login w1 u1 p1 st)) in
  after !! "role" = Some (JStr tag2)
  /\ after !! "token" = Some (JStr token2)
  /\ after !! identifier_slot (role_of_tag tag2) = Some (as_text (data r2))
  /\ after !! identifier_slot (role_of_tag tag1) = Some (as_text (data r1)).
Proof.
  intros Ha1 Hf1 Hacc1 Ha2 Hf2 Hacc2 Hroles after. subst after.
  unfold press_login.
  rewrite (trace_session _ _ _ _ _ _ Ha1 _ Hf1) by apply Hacc1.
  rewrite (trace_session _ _ _ _ _ _ Ha2 _ Hf2) by apply Hacc2.
  rewrite !session_trace_storage.
  destruct (identifier_slot_not_role (role_of_tag tag1)) as [Hr1 Ht1].
  destruct (identifier_slot_not_role (role_of_tag tag2)) as [Hr2 Ht2].
  assert (Hslots : identifier_slot (role_of_tag tag2) <> identifier_slot (role_of_tag tag1))
    by (intros H; apply Hroles; symmetry; apply identifier_slot_inj, H).
  repeat split.
  - rewrite lookup_insert_ne by congruence.
    rewrite lookup_insert_ne by discriminate.
    apply lookup_insert_eq.
  - rewrite lookup_insert_ne by congruence. apply lookup_insert_eq.
  - apply lookup_insert_eq.
  - rewrite lookup_insert_ne by exact Hslots.
    rewrite lookup_insert_ne by exact Ht1.
    rewrite lookup_insert_ne by exact Hr1.
    apply lookup_insert_eq.
Qed.

(** A Student login followed by a Guest login: the student number stays. *)
Lemma earlier_identifier_stays_witness :
  storage (press_login guest_world "gina" "pw"
             (press_login student_world "bob" "correct" initial_state))
    !! "studentNumber" = Some (JStr "2021001234").
Proof.
  apply (earlier_identifier_stays student_world guest_world
           "bob" "correct" "gina" "pw"
           {| status := 200; data := JStr "2021001234";
              headers := {[ "jwt-token" := "header.payload.signature" ]} |}
           {| status := 200; data := JStr "G-17";
              headers := {[ "jwt-token" := "header.payload.signature" ]} |}
           "header.payload.signature" "header.payload.signature"
           {| authorities := Some ["ROLE_STUDENT"] |}
           {| authorities := Some ["ROLE_GUEST"] |}
           "ROLE_STUDENT" "ROLE_GUEST" initial_state).
  - unfold answered. repeat split; discriminate.
  - reflexivity.
  - intros key value. reflexivity.
  - unfold answered. repeat split; discriminate.
  - reflexivity.
  - intros key value. reflexivity.
  - discriminate.
Defined.

(** ** What the user is shown *)

Lemma errorMessage_run (t : list Effect) (st st' : AppState) :
  errorMessage st = errorMessage st' ->
  errorMessage (run st t) = errorMessage (run st' t).
Proof.
  unfold run. revert st st'.
  induction t as [|e t IH]; intros st st' H; [exact H |].
  simpl. apply IH. destruct e; simpl; auto.
Qed.

Lemma shape_starts_cleared (t : list Effect) :
  Shape t -> exists rest, t = SetErrorMessage (JStr "") :: rest.
Proof. intros []; eexists; reflexivity. Qed.

(** X12: the inline message after a run does not depend on what was shown
    before: every run starts by clearing the message, so the text of an
    earlier failure never survives a new press. *)
Theorem earlier_message_gone (w : World) (u p : string) (st st' : AppState) :
  errorMessage (press_login w u p st) = errorMessage (press_login w u p st').
Proof.
  destruct (run_shape w u p) as (t & Hrun & Hshape).
  destruct (shape_starts_cleared t Hshape) as [rest ->].
  unfold press_login, trace. rewrite Hrun. cbn [fst].
  change (run st (SetErrorMessage (JStr "") :: rest))
    with (run (apply_effect st (SetErrorMessage (JStr ""))) rest).
  change (run st' (SetErrorMessage (JStr "") :: rest))
    with (run (apply_effect st' (SetErrorMessage (JStr ""))) rest).
  apply errorMessage_run. reflexivity.
Qed.

Lemma app_one_neq {A} (l : list A) (x : A) : l ++ [x] <> l.
Proof.
  intros H. apply (f_equal (@length A)) in H.
  rewrite length_app in H. simpl in H. lia.
Qed.

Lemma inline_message_truthy (m : string) : In m inline_messages -> truthy (JStr m) = true.
Proof. simpl. intros [<- | [<- | [<- | [<- | []]]]]; reflexivity. Qed.

(** X13: no run fails silently, and no successful run complains: when the
    router is not invoked the screen shows a non-empty inline message or a
    new alert, and when the router is invoked the inline message is empty
    and no alert was raised. *)
Theorem feedback (w : World) (u p : string) (st : AppState) :
  (routings (trace w u p) = [] ->
   truthy (errorMessage (press_login w u p st)) = true
   \/ alerts (press_login w u p st) <> alerts st)
  /\ (routings (trace w u p) <> [] ->
      errorMessage (press_login w u p st) = JStr ""
      /\ alerts (press_login w u p st) = alerts st).
Proof.
  destruct (run_shape w u p) as (t & Hrun & Hshape).
  unfold press_login, trace. rewrite Hrun. cbn [fst].
  destruct Hshape as [tag token d Hi Ht Hd | tag token d n Hi Ht Hd Hn | m Hm | | m Hm].
  - split; [discriminate | intros _; split; reflexivity].
  - destruct n as [|[|[|n]]]; [| | | lia];
      (split; [intros _; left; reflexivity | intros H; exfalso; apply H; reflexivity]).
  - split; [intros _; left; apply (inline_message_truthy m Hm) |
            intros H; exfalso; apply H; reflexivity].
  - split; [intros _; right; apply app_one_neq |
            intros H; exfalso; apply H; reflexivity].
  - split; [intros _; left; exact Hm | intros H; exfalso; apply H; reflexivity].
Qed.

(** X14: a run raises at most one alert or invokes the router at most
    once, and never does both. *)
Theorem one_alert_or_one_route (w : World) (u p : string) :
  (length (routings (trace w u p)) + length (alerts_of (trace w u p)) <= 1)%nat.
Proof.
  destruct (run_shape w u p) as (t & Hrun & Hshape).
  unfold trace. rewrite Hrun. cbn [fst].
  destruct Hshape as [tag token d Hi Ht Hd | tag token d n Hi Ht Hd Hn | m Hm | | m Hm];
    try (simpl; lia).
  destruct n as [|[|[|n]]]; [| | | lia]; simpl; lia.
Qed.

(** ** The form *)

(** X16: the handlers of the form, each run on the screen of the latest
    render: the password field hides its text exactly when
    [passwordVisible] is false, so it is hidden on a screen whose switch is
    off, shown after one press of the switch and hidden again after two;
    the switch never touches what was typed, an edit never touches the
    switch, the two fields are edited independently, and in a field the last
    edit is what stays. *)
Theorem form_edits (s : Screen) (a b : string) :
  (passwordVisible s = false ->
   secureTextEntry s = true
   /\ secureTextEntry (togglePasswordVisibility s) = false
   /\ secureTextEntry (togglePasswordVisibility (togglePasswordVisibility s)) = true)
  /\ (passwordVisible s = true ->
      secureTextEntry s = false
      /\ secureTextEntry (togglePasswordVisibility s) = true)
  /\ togglePasswordVisibility (togglePasswordVisibility s) = s
  /\ form (togglePasswordVisibility s) = form s
  /\ passwordVisible (handleUsernameChange a s) = passwordVisible s
  /\ passwordVisible (handlePasswordChange a s) = passwordVisible s
  /\ handleUsernameChange a (handlePasswordChange b s) =
       handlePasswordChange b (handleUsernameChange a s)
  /\ form (handlePasswordChange b (handleUsernameChange a s)) =
       {| username := a; password := b |}
  /\ handleUsernameChange a (handleUsernameChange b s) = handleUsernameChange a s
  /\ handlePasswordChange a (handlePasswordChange b s) = handlePasswordChange a s.
Proof.
  destruct s as [f v st]. unfold handleUsernameChange, handlePasswordChange,
    togglePasswordVisibility, secureTextEntry. simpl.
  split; [intros ->; repeat split |].
  split; [intros ->; repeat split |].
  split; [rewrite negb_involutive; reflexivity |].
  repeat split.
Qed.

Lemma press_form (w : World) (s : Screen) : form (press w s) = form s.
Proof. reflexivity. Qed.

(** X17: after a wrong password the inline error is rendered and the two
    fields still hold what was typed; correcting the password hides the
    error at once, leaves the user name and the session store alone, and
    the next press sends the user name with the new password. *)
Theorem edit_after_failure (w w' : World) (s : Screen) (r : Response) (text : string) :
  send w login_url (form s) = Responded r ->
  status r = 400 ->
  let failed := press w s in
  let edited := handlePasswordChange text failed in
  error_shown failed = true
  /\ form failed = form s
  /\ error_shown edited = false
  /\ form edited = {| username := username (form s); password := text |}
  /\ storage (app edited) = storage (app s)
  /\ app (press w' edited) =
       press_login w' (username (form s)) text (app edited).
Proof.
  intros Hs H400 failed edited. subst failed edited.
  destruct s as [[un pw] v st]. simpl in Hs.
  unfold press, handlePasswordChange, error_shown, press_login. simpl.
  rewrite (trace_invalid_credentials _ _ _ _ Hs H400).
  repeat split.
Qed.

(** The wrong-password scenario, typed into the initial screen. *)
Lemma edit_after_failure_witness :
  error_shown
    (press wrong_password_world
       (handlePasswordChange "wrongpass" (handleUsernameChange "alice" initial_screen)))
  = true.
Proof.
  apply (edit_after_failure wrong_password_world student_world
           (handlePasswordChange "wrongpass" (handleUsernameChange "alice" initial_screen))
           {| status := 400; data := JObj [("message", JStr "Bad credentials")];
              headers := ∅ |} "correct").
  - reflexivity.
  - reflexivity.
Defined.

(** The accepted logins are exactly the routed ones, at the Student
    scenario. *)
Lemma routed_iff_accepted_witness :
  accepts_writes student_world
  /\ (routings (trace student_world "bob" "correct") <> []
      <-> login_accepted student_world "bob" "correct").
Proof.
  split; [intros key value; reflexivity |].
  apply (routed_iff_accepted student_world "bob" "correct").
  intros key value. reflexivity.
Defined.

(** ** The role tag *)

Lemma find_split {A} (f : A -> bool) (l : list A) (x : A) :
  find f l = Some x <->
  exists before after,
    l = before ++ x :: after /\ Forall (fun y => f y = false) before /\ f x = true.
Proof.
  split.
  - induction l as [|y l IH]; simpl; [discriminate |].
    destruct (f y) eqn:Hy.
    + intros [= ->]. exists [], l. auto.
    + intros H. destruct (IH H) as (before & after & -> & Hb & Hx).
      exists (y :: before), after. auto.
  - intros (before & after & -> & Hb & Hx).
    induction Hb as [|y before Hy _ IH]; simpl; [rewrite Hx | rewrite Hy]; auto.
Qed.

Lemma includes_false (s sub : string) :
  includes s sub = false <-> ~ exists before after, s = (before ++ sub ++ after)%string.
Proof.
  rewrite <- includes_substring. destruct (includes s sub); intuition congruence.
Qed.

(** X18: the role tag of a token is the first entry of [authorities] in
    which the text [ROLE_] occurs anywhere, not only at the start, with no
    such entry before it; and there is no role tag exactly when [ROLE_]
    occurs in no entry, which includes a token without the claim. *)
Theorem role_tag_characterised (decoded : DecodedToken) (tag : string) :
  (userRole_of decoded = JStr tag <->
   exists before after,
     authorities decoded = Some (before ++ tag :: after)
     /\ Forall (fun t => ~ exists a b, t = (a ++ "ROLE_" ++ b)%string) before
     /\ exists a b, tag = (a ++ "ROLE_" ++ b)%string)
  /\ (userRole_of decoded = JUndefined <->
      Forall (fun t => ~ exists a b, t = (a ++ "ROLE_" ++ b)%string)
        (default [] (authorities decoded))).
Proof.
  rewrite userRole_of_first. unfold first_role_tag. split.
  - split.
    + destruct (find _ _) as [first|] eqn:Hf; [| discriminate].
      intros [= ->]. apply find_split in Hf.
      destruct Hf as (before & after & Hl & Hb & Hx).
      destruct decoded as [[tags|]]; simpl in Hl;
        [| destruct before; discriminate].
      exists before, after. subst tags. split; [reflexivity |]. split.
      * eapply Forall_impl; [exact Hb |]. intros t Ht. apply includes_false, Ht.
      * apply includes_substring, Hx.
    + intros (before & after & Hauth & Hb & Hx). rewrite Hauth. simpl.
      assert (Hf : find (fun t => includes t "ROLE_") (before ++ tag :: after) = Some tag).
      { apply find_split. exists before, after. split; [reflexivity |]. split.
        - eapply Forall_impl; [exact Hb |]. intros t Ht. apply includes_false, Ht.
        - apply includes_substring, Hx. }
      rewrite Hf. reflexivity.
  - split.
    + destruct (find _ _) as [first|] eqn:Hf; [discriminate |]. intros _.
      apply Forall_forall. intros t Hin. apply includes_false.
      apply list_elem_of_In in Hin. apply (find_none _ _ Hf t Hin).
    + intros Hall.
      destruct (find _ _) as [first|] eqn:Hf; [| reflexivity].
      apply find_some in Hf. destruct Hf as [Hin Hx].
      rewrite Forall_forall in Hall. apply includes_substring in Hx.
      apply list_elem_of_In in Hin. exfalso. exact (Hall first Hin Hx).
Qed.
